(** * GrymSynth: the serving runtime around the audio models

    A shallow embedding of three Python files of the repository,

    - [src/gama_operations.py]: the line-delimited stdio worker,
    - [src/gama_tests/test_scripts/utils/memory.py]: the memory manager,
    - [src/app/api/server.py]: the HTTP facade over the model cache,

    followed by the properties of the specification that concern them.

    Conventions of the embedding.  A Python [int] is a [Z].  A Python
    [float] is the rational it denotes, a [Q]: rounding is not modelled
    and non-finite floats are outside the model, but the exceptions
    Python raises on floats (division by zero) are kept.  The one
    function whose result is decided by rounding and overflow, the
    batch size of the memory manager, is embedded a second time over
    binary64 floats ([Memory64]), bit for bit.  [None] is the
    [None] of an [option].  A raised exception is the [Raise] branch of
    [res].  Calls into torch, transformers, psutil, numpy's generator and
    the clock are fields of an environment record, one per file. *)

From Stdlib Require Import ZArith QArith Qabs Qround Qminmax Lia Lqa.
From Corelib Require PrimFloat SpecFloat FloatOps.
From stdpp Require Import gmap strings pretty.

(** A decimal literal of a float stands for the nearest binary64 value,
    as it does in Python. *)
Set Warnings "-inexact-float".

(** ** JSON values

    What [json.loads] returns and [json.dumps] accepts.  A [JDict] lists
    the items of the dict in order, each key once.  A character of a
    [JStr] is one [ascii]. *)

#[warnings="-register-all"]
Inductive json : Type :=
| JNull
| JBool (b : bool)
| JInt (n : Z)
| JFloat (x : Q)
| JStr (s : string)
| JList (items : list json)
| JDict (items : list (string * json)).

(** ** Python exceptions and built-ins *)

(** The exceptions the three files can meet.  [HTTPException] is
    FastAPI's, a subclass of [Exception] like the others.  A text the
    code builds with an f-string or [str] is kept as its pieces: the
    literal parts, the values interpolated and the exceptions whose
    [str] is taken. *)
#[warnings="-register-all"]
Inductive exn : Type :=
| ZeroDivisionError
| AttributeError (type_name attr : string)
| TypeError (msg : string)
| KeyError (key : json)
| UnboundLocalError (name : string)
| ValueError (msg : string)
| OverflowError (msg : string)
| RecursionError (msg : string)
| HTTPException (status_code : Z) (detail : list piece)
| LibraryError (msg : string)
with piece : Type :=
| Lit (s : string)
| Val (v : json)
| Exn (e : exn).

Inductive res (A : Type) : Type :=
| Ok (a : A)
| Raise (e : exn).
Arguments Ok {A} a.
Arguments Raise {A} e.

#[global] Instance res_ret : MRet res := fun _ a => Ok a.
#[global] Instance res_bind : MBind res := fun _ _ f m =>
  match m with
  | Ok a => f a
  | Raise e => Raise e
  end.

(** The built-in operations the files use, under the names Python gives
    them. *)
Module Py.

(** [a // b] on ints. *)
Definition floordiv (a b : Z) : res Z :=
  if (b =? 0)%Z then Raise ZeroDivisionError else Ok (a / b)%Z.

(** [a / b] on ints: true division, a float. *)
Definition truediv_int (a b : Z) : res Q :=
  if (b =? 0)%Z then Raise ZeroDivisionError else Ok (inject_Z a / inject_Z b)%Q.

(** [a / b] on floats. *)
Definition truediv (a b : Q) : res Q :=
  if Qeq_bool b 0 then Raise ZeroDivisionError else Ok (a / b)%Q.

(** [a < b] on floats. *)
Definition ltb (a b : Q) : bool := negb (Qle_bool b a).

(** [min(a, b)]: the first argument unless the second is smaller. *)
Definition min (a b : Q) : Q := if ltb b a then b else a.

(** [max(a, b)] on ints. *)
Definition max (a b : Z) : Z := if (a <? b)%Z then b else a.

(** [int(x)] of a float: truncation toward zero. *)
Definition int (x : Q) : Z := Z.quot (Qnum x) (Zpos (Qden x)).

(** [round] to the nearest integer, ties to the even one, as the
    [.1f] conversion does on the digit it keeps. *)
Definition round_half_even (x : Q) : Z :=
  let f := Qfloor x in
  match (x - inject_Z f ?= 1 # 2)%Q with
  | Lt => f
  | Gt => (f + 1)%Z
  | Eq => if Z.even f then f else (f + 1)%Z
  end.

(** [f"{x:.1f}"] *)
Definition format_1f (x : Q) : string :=
  let tenths := round_half_even (Qabs x * 10) in
  (if ltb x 0 then "-" else "") +:+
  pretty (tenths / 10)%Z +:+ "." +:+ pretty (tenths mod 10)%Z.

End Py.

(** The same built-ins on binary64 floats.  A Python [float] is an IEEE
    754 double and so is Rocq's primitive [float]; [*], [-], [/], [<]
    and [==] are the operations of the processor in both. *)
Module Float64.

Import PrimFloat SpecFloat FloatOps.

(** The rational a finite float denotes: [(-1)**s * m * 2**e].  An
    infinity and a NaN denote none. *)
Definition value (x : float) : option Q :=
  match Prim2SF x with
  | S754_zero _ => Some 0%Q
  | S754_finite s m e =>
      let magnitude := match e with
                       | Z0 => Zpos m # 1
                       | Zpos p => Zpos (m * 2 ^ p) # 1
                       | Zneg p => Zpos m # 2 ^ p
                       end in
      Some (if s then Qopp magnitude else magnitude)
  | S754_infinity _ | S754_nan => None
  end.

(** [a / b] on floats; [0.0] and [-0.0] both equal zero. *)
Definition truediv (a b : float) : res float :=
  if (b =? 0)%float then Raise ZeroDivisionError else Ok (a / b)%float.

(** [min(a, b)]: the first argument unless the second is smaller. *)
Definition min (a b : float) : float := if (b <? a)%float then b else a.

(** [int(x)] of a float: the value truncated toward zero; an infinity
    and a NaN are refused. *)
Definition int (x : float) : res Z :=
  match value x with
  | Some v => Ok (Py.int v)
  | None =>
      if is_nan x then Raise (ValueError "cannot convert float NaN to integer")
      else Raise (OverflowError "cannot convert float infinity to integer")
  end.

(** [n / 2**k] on ints: true division gives the float nearest to the
    quotient, ties to even, and refuses a quotient beyond the floats. *)
Definition truediv_pow2 (n k : Z) : res float :=
  match binary_normalize prec emax n (- k) false with
  | S754_infinity _ => Raise (OverflowError "integer division result too large for a float")
  | x => Ok (SF2Prim x)
  end.

End Float64.

(** ** Operations on JSON values *)

Module Json.

(** [type(v).__name__] *)
Definition type_name (v : json) : string :=
  match v with
  | JNull => "NoneType"
  | JBool _ => "bool"
  | JInt _ => "int"
  | JFloat _ => "float"
  | JStr _ => "str"
  | JList _ => "list"
  | JDict _ => "dict"
  end.

Fixpoint lookup (items : list (string * json)) (key : string) : option json :=
  match items with
  | [] => None
  | (k, v) :: rest => if String.eqb k key then Some v else lookup rest key
  end.

(** [v.get(key, fallback)]: only a dict has the method. *)
Definition get (v : json) (key : string) (fallback : json) : res json :=
  match v with
  | JDict items => Ok (default fallback (lookup items key))
  | _ => Raise (AttributeError (type_name v) "get")
  end.

(** [len(v)] *)
Definition len (v : json) : res Z :=
  match v with
  | JStr s => Ok (Z.of_nat (String.length s))
  | JList items => Ok (Z.of_nat (length items))
  | JDict items => Ok (Z.of_nat (length items))
  | _ => Raise (TypeError ("object of type '" +:+ type_name v +:+ "' has no len()"))
  end.

(** [bool(v)] *)
Definition truthy (v : json) : bool :=
  match v with
  | JNull => false
  | JBool b => b
  | JInt n => negb (n =? 0)%Z
  | JFloat x => negb (Qeq_bool x 0)
  | JStr s => negb (String.eqb s "")
  | JList items => match items with [] => false | _ => true end
  | JDict items => match items with [] => false | _ => true end
  end.

(** [v == s] for a string literal [s] *)
Definition eq_str (v : json) (s : string) : bool :=
  match v with
  | JStr t => String.eqb t s
  | _ => false
  end.

(** [a or b] *)
Definition or (a b : json) : json := if truthy a then a else b.

End Json.

(** ** src/gama_operations.py: the stdio worker *)

Module GamaOperations.

(** What the module reads from outside: torch's device probe, the process
    environment and numpy's generator.  The [n]-th number the generator
    hands out is [random_random n] when asked through [np.random.random]
    and [random_normal n] when asked through [np.random.normal(0, 0.1)]. *)
Record Env := {
  cuda_is_available : bool;
  environ : gmap string string;
  random_random : nat -> Q;
  random_normal : nat -> Q
}.

Record MockGAMAProcessor := {
  model_path : json;
  device : json;
  quantization : json;
  initialized : bool
}.

Record Segment := {
  seg_text : string;
  seg_start : Q;
  seg_end : Q;
  seg_confidence : Q
}.

Record MemoryUsage := { peak : Z; current : Z }.

Record AudioResult := {
  transcription : string;
  confidence : Q;
  segments : list Segment;
  duration : Q;
  word_count : Z;
  processing_time : Z;
  memory_usage : MemoryUsage
}.

Record FeaturesMetadata := {
  meta_type : string;
  dimensions : list Z;
  sample_rate : Z;
  time_steps : Z
}.

(** The dicts the operations return. *)
Inductive payload : Type :=
| Ping_result (status : string) (device : json) (memory_available : Z)
| Audio_result (r : AudioResult)
| Feature_vector_result (feature_vector : list Q) (processing_time : Z) (usage : MemoryUsage)
| Features_result (features : list (list Q)) (metadata : FeaturesMetadata)
    (processing_time : Z) (usage : MemoryUsage)
| Status_result (status : string).

(** One line on stdout: [json.dumps({"id":.., "result":.., "error":..})]. *)
Record response := {
  resp_id : json;
  resp_result : option payload;
  resp_error : option (list piece)
}.

(** The lines written to stderr, by their ingredients. *)
Inductive log : Type :=
| Initializing (model_path device : json)
| Loading_model (model_path device : json)
| Service_started
| Shutting_down
| Error_processing (e : exn)
| Invalid_JSON (line : string)
| Service_stopped.

(** One line of stdin, by what [json.loads] makes of it: it raises
    [JSONDecodeError] on the text, it raises another exception (a plain
    [ValueError] on an integer literal longer than the interpreter's
    digit limit, [RecursionError] on nesting too deep for the decoder),
    or it returns a value. *)
Inductive line : Type :=
| BadJson (raw : string)
| Unparsed (raw : string) (e : exn)
| Json (request : json).

(** The state the loop threads: the object its variable [processor] is
    bound to, both output channels, and how many numbers the generator
    has handed out. *)
Record state := {
  processor : MockGAMAProcessor;
  stderr : list log;
  stdout : list response;
  draws : nat
}.

Definition M (A : Type) : Type := state -> res A * state.

#[global] Instance M_ret : MRet M := fun _ a s => (Ok a, s).
#[global] Instance M_bind : MBind M := fun _ _ f m s =>
  match m s with
  | (Ok a, s') => f a s'
  | (Raise e, s') => (Raise e, s')
  end.

Definition lift {A} (r : res A) : M A := fun s => (r, s).

Definition try_exceptM {A} (m : M A) (h : exn -> M A) : M A := fun s =>
  match m s with
  | (Ok a, s') => (Ok a, s')
  | (Raise e, s') => h e s'
  end.

Definition get_self : M MockGAMAProcessor := fun s => (Ok (processor s), s).

Definition set_self (p : MockGAMAProcessor) : M unit := fun s =>
  (Ok tt, {| processor := p; stderr := stderr s; stdout := stdout s; draws := draws s |}).

Definition print_stderr (l : log) : M unit := fun s =>
  (Ok tt, {| processor := processor s; stderr := stderr s ++ [l];
             stdout := stdout s; draws := draws s |}).

Definition write_stdout (r : response) : M unit := fun s =>
  (Ok tt, {| processor := processor s; stderr := stderr s;
             stdout := stdout s ++ [r]; draws := draws s |}).

Definition draw (f : nat -> Q) : M Q := fun s =>
  (Ok (f (draws s)), {| processor := processor s; stderr := stderr s;
                        stdout := stdout s; draws := S (draws s) |}).

(** [for x in xs: ys.append(body(x))] *)
Fixpoint for_each {A B} (xs : list A) (body : A -> M B) : M (list B) :=
  match xs with
  | [] => mret []
  | x :: rest => y ← body x; ys ← for_each rest body; mret (y :: ys)
  end.

(** [range(n)] *)
Definition range (n : Z) : list Z := map Z.of_nat (seq 0 (Z.to_nat n)).

Section Worker.

Variable E : Env.

(** [MockGAMAProcessor.__init__] *)
Definition new (model_path device quantization : json) : M unit :=
  let self := {| model_path := model_path;
                 device := if cuda_is_available E then device else JStr "cpu";
                 quantization := quantization;
                 initialized := false |} in
  print_stderr (Initializing model_path (GamaOperations.device self));;
  set_self self.

Definition initialize : M unit :=
  self ← get_self;
  print_stderr (Loading_model (model_path self) (device self));;
  set_self {| model_path := model_path self; device := device self;
              quantization := quantization self; initialized := true |}.

Definition ensure_initialized : M unit :=
  self ← get_self;
  if initialized self then mret tt else initialize.

Definition process_audio (audio_data options : json) : M AudioResult :=
  ensure_initialized;;
  let options := Json.or options (JDict []) in
  audio_length ← lift (Json.len audio_data);
  per_word ← lift (Py.floordiv audio_length 8000);
  let word_count := Py.max 1 per_word in
  segment_length ← lift (Py.floordiv audio_length word_count);
  segments ← for_each (range word_count) (fun i =>
    start ← lift (Py.truediv_int (i * segment_length) 16000);
    end_ ← lift (Py.truediv_int ((i + 1) * segment_length) 16000);
    r ← draw (random_random E);
    mret {| seg_text := "Word " +:+ pretty (i + 1)%Z;
            seg_start := start;
            seg_end := end_;
            seg_confidence := 0.8 + 0.2 * r |});
  duration ← lift (Py.truediv_int audio_length 16000);
  mret {| transcription := String.concat " " (map seg_text segments);
          confidence := 0.9;
          segments := segments;
          duration := duration;
          word_count := word_count;
          processing_time := 500;
          memory_usage := {| peak := 1024 * 1024 * 100; current := 1024 * 1024 * 50 |} |}.

Definition feature_dim : Z := 768.

Definition extract_features (audio_data options : json) : M payload :=
  ensure_initialized;;
  let options := Json.or options (JDict []) in
  return_vector ← lift (Json.get options "return_vector" (JBool false));
  if Json.truthy return_vector then
    feature_vector ← for_each (range feature_dim) (fun _ => draw (random_normal E));
    mret (Feature_vector_result feature_vector 300
            {| peak := 1024 * 1024 * 80; current := 1024 * 1024 * 40 |})
  else
    audio_length ← lift (Json.len audio_data);
    frames ← lift (Py.floordiv audio_length 320);
    let num_frames := Py.max 1 frames in
    features ← for_each (range num_frames) (fun _ =>
      for_each (range feature_dim) (fun _ => draw (random_normal E)));
    mret (Features_result features
            {| meta_type := "gama_features";
               dimensions := [num_frames; feature_dim];
               sample_rate := 16000;
               time_steps := num_frames |}
            300
            {| peak := 1024 * 1024 * 80; current := 1024 * 1024 * 40 |}).

Definition ping : M payload :=
  self ← get_self;
  mret (Ping_result "ok" (device self)
          (if Json.eq_str (device self) "cuda" then 1024 * 1024 * 1024 * 6 else 0)).

(** How the [try] block of one iteration ends when it does not raise:
    it falls through to the response with [result] and [error] as set,
    or it leaves the loop by [break] with [result] as set. *)
Inductive dispatched : Type :=
| Falls_through (result : option payload) (error : option (list piece))
| Breaks (result : option payload).

(** The three locals of [main] read from the process environment. *)
Definition env_model_path : string :=
  default "facebook/gama-7b" (environ E !! "GAMA_MODEL_PATH").
Definition env_device : string :=
  default (if cuda_is_available E then "cuda" else "cpu") (environ E !! "GAMA_DEVICE").
Definition env_quantization : string :=
  default "8bit" (environ E !! "GAMA_QUANTIZATION").

(** The body of the inner [try], lines 189-216. *)
Definition dispatch (operation data : json) : M dispatched :=
  if Json.eq_str operation "ping" then
    result ← ping;
    mret (Falls_through (Some result) None)
  else if Json.eq_str operation "process_audio" then
    audio ← lift (Json.get data "audio" (JDict []));
    audio_data ← lift (Json.get audio "data" (JList []));
    options ← lift (Json.get data "options" JNull);
    result ← process_audio audio_data options;
    mret (Falls_through (Some (Audio_result result)) None)
  else if Json.eq_str operation "extract_features" then
    audio ← lift (Json.get data "audio" (JDict []));
    audio_data ← lift (Json.get audio "data" (JList []));
    options ← lift (Json.get data "options" JNull);
    result ← extract_features audio_data options;
    mret (Falls_through (Some result) None)
  else if Json.eq_str operation "load_model" then
    path ← lift (Json.get data "model_path" (JStr env_model_path));
    options ← lift (Json.get data "options" (JDict []));
    dev ← lift (Json.get options "device" (JStr env_device));
    options ← lift (Json.get data "options" (JDict []));
    quant ← lift (Json.get options "quantization" (JStr env_quantization));
    new path dev quant;;
    initialize;;
    mret (Falls_through (Some (Status_result "ok")) None)
  else if Json.eq_str operation "shutdown" then
    print_stderr Shutting_down;;
    mret (Breaks (Some (Status_result "shutdown")))
  else
    mret (Falls_through None (Some [Lit "Unknown operation: "; Val operation])).

(** What one iteration tells the [for] statement. *)
Inductive signal : Type := Next | Break.

(** The body of [for line in sys.stdin], lines 179-234.  The outer
    [except] names [json.JSONDecodeError] only, which nothing but
    [json.loads] raises; whatever else [json.loads] raises is caught by
    neither [except] and leaves the loop. *)
Definition iteration (l : line) : M signal :=
  match l with
  | BadJson raw =>
      print_stderr (Invalid_JSON raw);;
      mret Next
  | Unparsed raw e =>
      lift (Raise e)
  | Json request =>
      request_id ← lift (Json.get request "id" JNull);
      operation ← lift (Json.get request "operation" JNull);
      data ← lift (Json.get request "data" (JDict []));
      d ← try_exceptM (dispatch operation data) (fun e =>
             print_stderr (Error_processing e);;
             mret (Falls_through None (Some [Exn e])));
      match d with
      | Breaks _ => mret Break
      | Falls_through result error =>
          write_stdout {| resp_id := request_id; resp_result := result; resp_error := error |};;
          mret Next
      end
  end.

Fixpoint read_loop (lines : list line) : M unit :=
  match lines with
  | [] => mret tt
  | l :: rest =>
      sig ← iteration l;
      match sig with
      | Next => read_loop rest
      | Break => mret tt
      end
  end.

(** Lines 168-175: the processor built from the environment, and what
    has been printed when the loop starts. *)
Definition started : state :=
  let self := {| model_path := JStr env_model_path;
                 device := if cuda_is_available E then JStr env_device else JStr "cpu";
                 quantization := JStr env_quantization;
                 initialized := false |} in
  {| processor := self;
     stderr := [Initializing (JStr env_model_path) (device self); Service_started];
     stdout := [];
     draws := 0 |}.

(** [main()], run on the lines of stdin.  A [Raise] is an exception that
    leaves [main]: the process dies on it. *)
Definition main (stdin : list line) : res unit * state :=
  (read_loop stdin;; print_stderr Service_stopped) started.

End Worker.

End GamaOperations.

(** ** src/gama_tests/test_scripts/utils/memory.py: the memory manager *)

Module Memory.

(** What [get_memory_stats] reads: [psutil.virtual_memory()] and
    [torch.cuda], in bytes. *)
Record Probe := {
  virtual_memory_used : Z;
  virtual_memory_available : Z;
  virtual_memory_total : Z;
  cuda_is_available : bool;
  cuda_memory_allocated : Z;
  cuda_memory_reserved : Z;
  cuda_max_memory_allocated : Z;
  cuda_total_memory : Z
}.

(** The dataclass, every field in GB. *)
Record MemoryStats := {
  gpu_allocated : Q;
  gpu_cached : Q;
  gpu_max_allocated : Q;
  gpu_total : Q;
  ram_used : Q;
  ram_available : Q;
  ram_total : Q
}.

Record MemoryManager := { target_gpu_memory : Q }.

(** The dict [optimize_model_config] builds; a key it may leave out is
    an [option]. *)
Record Config := {
  torch_dtype : string;
  device_map : string;
  load_in_8bit : option bool;
  use_cache : option bool;
  gradient_checkpointing : option bool;
  max_memory : list (Z * string)
}.

(** [1024**3] *)
Definition GiB : Z := 1073741824.

Definition get_memory_stats (P : Probe) : res MemoryStats :=
  used ← Py.truediv_int (virtual_memory_used P) GiB;
  available ← Py.truediv_int (virtual_memory_available P) GiB;
  total ← Py.truediv_int (virtual_memory_total P) GiB;
  if cuda_is_available P then
    allocated ← Py.truediv_int (cuda_memory_allocated P) GiB;
    cached ← Py.truediv_int (cuda_memory_reserved P) GiB;
    max_allocated ← Py.truediv_int (cuda_max_memory_allocated P) GiB;
    gtotal ← Py.truediv_int (cuda_total_memory P) GiB;
    mret {| gpu_allocated := allocated; gpu_cached := cached;
            gpu_max_allocated := max_allocated; gpu_total := gtotal;
            ram_used := used; ram_available := available; ram_total := total |}
  else
    mret {| gpu_allocated := 0; gpu_cached := 0; gpu_max_allocated := 0; gpu_total := 0;
            ram_used := used; ram_available := available; ram_total := total |}.

Definition optimize_model_config (self : MemoryManager) (P : Probe) : res Config :=
  stats ← get_memory_stats P;
  let low := Py.ltb (gpu_total stats) 8 in
  let max_memory := Py.min (gpu_total stats - 0.5) (target_gpu_memory self) in
  mret {| torch_dtype := "torch.float16";
          device_map := "auto";
          load_in_8bit := if low then Some true else None;
          use_cache := if low then Some false else None;
          gradient_checkpointing := if low then Some true else None;
          max_memory := [(0%Z, Py.format_1f max_memory +:+ "GB")] |}.

(** Over the rationals: the batch size as exact arithmetic gives it.
    [Memory64.get_optimal_batch_size] below is the same function as
    binary64 arithmetic computes it, where the two differ. *)
Definition get_optimal_batch_size (self : MemoryManager) (P : Probe)
    (sample_batch_memory : Q) (target_memory : option Q) : res Z :=
  let target_memory := default (target_gpu_memory self) target_memory in
  stats ← get_memory_stats P;
  let available_memory := Py.min (gpu_total stats - gpu_allocated stats) target_memory in
  quotient ← Py.truediv (available_memory * 0.8) sample_batch_memory;
  let optimal_batch_size := Py.int quotient in
  mret (Py.max 1 optimal_batch_size).

(** Lines 88-103: [(is_available, available_memory_gb)]. *)
Definition check_memory_available (self : MemoryManager) (P : Probe) (required_gb : Q)
    : res (bool * Q) :=
  if negb (cuda_is_available P) then mret (false, 0%Q)
  else
    stats ← get_memory_stats P;
    let available := (gpu_total stats - gpu_allocated stats)%Q in
    mret (Qle_bool required_gb available, available).

End Memory.

(** [get_memory_stats] and [get_optimal_batch_size] once more, every
    [float] a binary64 value.  The batch size is the integer part of a
    quotient of floats: which integer it is depends on the rounding of
    the product and of the quotient, and whether there is one at all on
    the quotient being finite. *)
Module Memory64.

Import PrimFloat.

(** The dataclass, every field in GB. *)
Record MemoryStats := {
  gpu_allocated : float;
  gpu_cached : float;
  gpu_max_allocated : float;
  gpu_total : float;
  ram_used : float;
  ram_available : float;
  ram_total : float
}.

Record MemoryManager := { target_gpu_memory : float }.

(** [n / 1024**3]; [1024**3] is [2**30]. *)
Definition per_GiB (n : Z) : res float := Float64.truediv_pow2 n 30.

Definition get_memory_stats (P : Memory.Probe) : res MemoryStats :=
  used ← per_GiB (Memory.virtual_memory_used P);
  available ← per_GiB (Memory.virtual_memory_available P);
  total ← per_GiB (Memory.virtual_memory_total P);
  if Memory.cuda_is_available P then
    allocated ← per_GiB (Memory.cuda_memory_allocated P);
    cached ← per_GiB (Memory.cuda_memory_reserved P);
    max_allocated ← per_GiB (Memory.cuda_max_memory_allocated P);
    gtotal ← per_GiB (Memory.cuda_total_memory P);
    mret {| gpu_allocated := allocated; gpu_cached := cached;
            gpu_max_allocated := max_allocated; gpu_total := gtotal;
            ram_used := used; ram_available := available; ram_total := total |}
  else
    mret {| gpu_allocated := 0; gpu_cached := 0; gpu_max_allocated := 0; gpu_total := 0;
            ram_used := used; ram_available := available; ram_total := total |}.

Definition get_optimal_batch_size (self : MemoryManager) (P : Memory.Probe)
    (sample_batch_memory : float) (target_memory : option float) : res Z :=
  let target_memory := default (target_gpu_memory self) target_memory in
  stats ← get_memory_stats P;
  let available_memory := Float64.min (gpu_total stats - gpu_allocated stats) target_memory in
  quotient ← Float64.truediv (available_memory * 0.8) sample_batch_memory;
  optimal_batch_size ← Float64.int quotient;
  mret (Py.max 1 optimal_batch_size).

End Memory64.

(** ** src/app/api/server.py: the HTTP facade *)

Module Server.

(** A reference to an object the transformers library holds. *)
Definition handle := N.

(** What the module calls outside itself: torch's device probe and
    counters, the two [from_pretrained] loaders, [model.to(device)], the
    inference pipeline of lines 137-158 (from the audio and the sample
    rate to the feature list and its shape), and the clock. *)
Record Env := {
  cuda_is_available : bool;
  memory_allocated : Z;
  max_memory_allocated : Z;
  Wav2Vec2Processor_from_pretrained : string -> res handle;
  Wav2Vec2Model_from_pretrained : string -> res handle;
  model_to : handle -> string -> res handle;
  extract : handle -> handle -> list Q -> Z -> res (list Q * list Z);
  time_time : Q
}.

Record ModelConfig := {
  name : string;
  path : string;
  parameters : gmap string json
}.

Record AudioData := {
  audio : list Q;
  sampleRate : Z;
  options : gmap string json
}.

Record Metadata := {
  meta_model : json;
  meta_shape : list Z;
  meta_timestamp : Q
}.

Record ProcessingResult := {
  features : list Q;
  metadata : Metadata
}.

Record HealthStatus := {
  status : string;
  models : list string;
  gpu_available : bool;
  memory_usage : Q
}.

(** The dict [load_model] returns. *)
Record LoadReply := {
  success : bool;
  message : string
}.

(** An entry of the cache. *)
Record ModelData := {
  md_processor : handle;
  md_model : handle;
  md_config : ModelConfig
}.

(** The records the logger receives, by their ingredients. *)
Inductive log : Type :=
| Loading_model (name path : string)
| Model_loaded (name : string)
| Failed_to_load (name : string) (e : exn)
| Health_check_failed (e : exn)
| Failed_to_start (e : exn)
| Processing_failed (e : exn).

(** The module's global [loaded_models], the background tasks added and
    not yet run, and the log. *)
Record state := {
  loaded_models : gmap string ModelData;
  background_tasks : list ModelConfig;
  logs : list log
}.

Definition M (A : Type) : Type := state -> res A * state.

#[global] Instance M_ret : MRet M := fun _ a s => (Ok a, s).
#[global] Instance M_bind : MBind M := fun _ _ f m s =>
  match m s with
  | (Ok a, s') => f a s'
  | (Raise e, s') => (Raise e, s')
  end.

Definition lift {A} (r : res A) : M A := fun s => (r, s).

Definition raise {A} (e : exn) : M A := fun s => (Raise e, s).

Definition try_exceptM {A} (m : M A) (h : exn -> M A) : M A := fun s =>
  match m s with
  | (Ok a, s') => (Ok a, s')
  | (Raise e, s') => h e s'
  end.

Definition logger (l : log) : M unit := fun s =>
  (Ok tt, {| loaded_models := loaded_models s;
             background_tasks := background_tasks s;
             logs := logs s ++ [l] |}).

(** [loaded_models[key] = value] *)
Definition store (key : string) (value : ModelData) : M unit := fun s =>
  (Ok tt, {| loaded_models := <[key := value]> (loaded_models s);
             background_tasks := background_tasks s;
             logs := logs s |}).

(** [background_tasks.add_task(load_model_task, config)] *)
Definition add_task (config : ModelConfig) : M unit := fun s =>
  (Ok tt, {| loaded_models := loaded_models s;
             background_tasks := background_tasks s ++ [config];
             logs := logs s |}).

(** [key in loaded_models]: the keys are strings; a list or a dict
    cannot be hashed. *)
Definition contains (key : json) : M bool := fun s =>
  (match key with
   | JStr k => Ok (bool_decide (is_Some (loaded_models s !! k)))
   | JList _ | JDict _ =>
       Raise (TypeError ("unhashable type: '" +:+ Json.type_name key +:+ "'"))
   | _ => Ok false
   end, s).

(** [list(loaded_models.keys())]; the order of insertion is not kept. *)
Definition keys : M (list string) := fun s =>
  (Ok (map_to_list (loaded_models s)).*1, s).

(** [loaded_models[key]] *)
Definition getitem (key : json) : M ModelData := fun s =>
  (match key with
   | JStr k => match loaded_models s !! k with
               | Some d => Ok d
               | None => Raise (KeyError key)
               end
   | JList _ | JDict _ =>
       Raise (TypeError ("unhashable type: '" +:+ Json.type_name key +:+ "'"))
   | _ => Raise (KeyError key)
   end, s).

Section Api.

Variable E : Env.

(** Lines 44-66.  The [except] swallows every exception of the load. *)
Definition load_model_task (config : ModelConfig) : M unit :=
  try_exceptM
    (logger (Loading_model (name config) (path config));;
     processor ← lift (Wav2Vec2Processor_from_pretrained E (path config));
     model ← lift (Wav2Vec2Model_from_pretrained E (path config));
     let device := if cuda_is_available E then "cuda" else "cpu" in
     model ← lift (model_to E model device);
     store (name config)
       {| md_processor := processor; md_model := model; md_config := config |};;
     logger (Model_loaded (name config)))
    (fun e => logger (Failed_to_load (name config) e)).

(** Lines 69-90. *)
Definition health_check : M HealthStatus :=
  try_exceptM
    (let gpu_available := cuda_is_available E in
     memory_usage ←
       (if gpu_available then
          if (max_memory_allocated E >? 0)%Z
          then lift (Py.truediv_int (memory_allocated E) (max_memory_allocated E))
          else mret 0%Q
        else mret 0%Q);
     models ← keys;
     mret {| status := "ok";
             models := models;
             gpu_available := gpu_available;
             memory_usage := memory_usage |})
    (fun e =>
       logger (Health_check_failed e);;
       raise (HTTPException 500 [Lit "Health check failed: "; Exn e])).

(** Lines 92-106. *)
Definition load_model (config : ModelConfig) : M LoadReply :=
  try_exceptM
    (loaded ← contains (JStr (name config));
     if loaded : bool then
       mret {| success := true;
               message := "Model " +:+ name config +:+ " already loaded" |}
     else
       add_task config;;
       mret {| success := true;
               message := "Model " +:+ name config +:+ " loading started" |})
    (fun e =>
       logger (Failed_to_start e);;
       raise (HTTPException 500 [Exn e])).

(** Lines 108-170.  The function's only [import time] stands inside the
    branch that loads the default model, and the module imports no
    [time] of its own: the name is a local of the function, bound only
    when that branch has run.  [time_bound] says whether it is. *)
Definition process_audio (data : AudioData) : M ProcessingResult :=
  try_exceptM
    (let model_name := default (JStr "wav2vec2-base") (options data !! "model") in
     loaded ← contains model_name;
     time_bound ←
       (if loaded : bool then mret false
        else if Json.eq_str model_name "wav2vec2-base" then
          load_model_task {| name := "wav2vec2-base";
                             path := "facebook/wav2vec2-base-960h";
                             parameters := ∅ |};;
          mret true
        else
          raise (HTTPException 400
                   [Lit "Model "; Val model_name; Lit " not loaded. Please load it first."]));
     model_data ← getitem model_name;
     '(features_list, shape) ← lift (extract E (md_processor model_data) (md_model model_data)
                                       (audio data) (sampleRate data));
     timestamp ← (if time_bound : bool then mret (time_time E)
                  else raise (UnboundLocalError "time"));
     mret {| features := features_list;
             metadata := {| meta_model := model_name;
                            meta_shape := shape;
                            meta_timestamp := timestamp |} |})
    (fun e =>
       logger (Processing_failed e);;
       raise (HTTPException 500 [Exn e])).

(** What reaches the server: a request, or the event loop running the
    [i]-th background task still waiting.  The served application runs
    the task of a load request right after the response of that request,
    and [load_model_task] never awaits, so there a [POST_models_load]
    that adds a task is followed at once by [Runs_background_task 0];
    the event lets a task run at any later point as well, and what is
    proved for every list of events holds for the served order too. *)
Inductive event : Type :=
| GET_health
| POST_models_load (config : ModelConfig)
| POST_process_wav2vec2 (data : AudioData)
| Runs_background_task (i : nat).

(** What goes back: the body with status 200, or the [HTTPException]. *)
Inductive reply : Type :=
| Health (r : res HealthStatus)
| Load (r : res LoadReply)
| Process (r : res ProcessingResult)
| Task_done
| No_such_task.

(** Take the [i]-th task off the waiting list. *)
Definition take_task (i : nat) : M (option ModelConfig) := fun s =>
  (Ok (background_tasks s !! i),
   {| loaded_models := loaded_models s;
      background_tasks := take i (background_tasks s) ++ drop (S i) (background_tasks s);
      logs := logs s |}).

Definition handle_event (ev : event) (s : state) : reply * state :=
  match ev with
  | GET_health => let '(r, s') := health_check s in (Health r, s')
  | POST_models_load config => let '(r, s') := load_model config s in (Load r, s')
  | POST_process_wav2vec2 data => let '(r, s') := process_audio data s in (Process r, s')
  | Runs_background_task i =>
      match take_task i s with
      | (Ok (Some config), s') => (Task_done, (load_model_task config s').2)
      | (_, s') => (No_such_task, s')
      end
  end.

Fixpoint serve (evs : list event) (s : state) : list reply * state :=
  match evs with
  | [] => ([], s)
  | ev :: rest =>
      let '(r, s') := handle_event ev s in
      let '(rs, s'') := serve rest s' in
      (r :: rs, s'')
  end.

(** The module as imported: nothing loaded, nothing scheduled. *)
Definition start : state :=
  {| loaded_models := ∅; background_tasks := []; logs := [] |}.

End Api.

End Server.

(** * The vocabulary of the properties, and the inputs they are tried on *)

Module WorkerTerms.

Import GamaOperations.

(** The text of segment [i]. *)
Definition word (i : Z) : string := "Word " +:+ pretty (i + 1)%Z.

(** An operation that writes nothing to stdout. *)
Definition quiet {A} (m : M A) : Prop := forall s, stdout (m s).2 = stdout s.

(** The operations the dispatch knows. *)
Definition known (operation : json) : bool :=
  Json.eq_str operation "ping" || Json.eq_str operation "process_audio"
  || Json.eq_str operation "extract_features" || Json.eq_str operation "load_model"
  || Json.eq_str operation "shutdown".

Definition exactly_one (r : response) : Prop :=
  (is_Some (resp_result r) /\ resp_error r = None) \/
  (resp_result r = None /\ is_Some (resp_error r)).

Section Answers.

Variable E : Env.

(** [r] answers [request], dispatched from state [s]: it carries the
    request's id; when the dispatch returns, [result] is set and [error]
    is not, unless the operation is unknown and then [error] alone is
    set; when the dispatch raises [e], [error] is [str(e)] and [result]
    is not set. *)
Definition answers (request : json) (s : state) (r : response) : Prop :=
  exists operation data,
    Json.get request "id" JNull = Ok (resp_id r) /\
    Json.get request "operation" JNull = Ok operation /\
    Json.get request "data" (JDict []) = Ok data /\
    match (dispatch E operation data s).1 with
    | Ok _ =>
        if known operation
        then is_Some (resp_result r) /\ resp_error r = None
        else resp_result r = None /\
             resp_error r = Some [Lit "Unknown operation: "; Val operation]
    | Raise e => resp_result r = None /\ resp_error r = Some [Exn e]
    end.

End Answers.

(** A host without CUDA, nothing set in the environment, a generator
    that hands out the same numbers every time. *)
Definition cpu_host : Env :=
  {| cuda_is_available := false;
     environ := ∅;
     random_random := fun _ => 0.5%Q;
     random_normal := fun _ => 0%Q |}.

(** The line [{"id": id, "operation": operation, "data": data}]. *)
Definition request (id : Z) (operation : string) (data : json) : line :=
  Json (JDict [("id", JInt id); ("operation", JStr operation); ("data", data)]).

(** [{"audio": {"data": [0.0, ...]}}] with [n] samples. *)
Definition audio_of (n : nat) : json :=
  JDict [("audio", JDict [("data", JList (repeat (JFloat 0) n))])].

(** A line the loop answers: one [json.loads] rejects with
    [JSONDecodeError] (answered on stderr) or one it decodes to an
    object whose operation is not "shutdown". *)
Definition serviceable (l : line) : bool :=
  match l with
  | BadJson _ => true
  | Unparsed _ _ => false
  | Json (JDict items) =>
      negb (Json.eq_str (default JNull (Json.lookup items "operation")) "shutdown")
  | Json _ => false
  end.

(** The ids of the object lines, in order. *)
Definition request_ids (lines : list line) : list json :=
  flat_map (fun l => match l with
                     | Json (JDict items) => [default JNull (Json.lookup items "id")]
                     | _ => []
                     end) lines.

Definition is_loading (l : log) : bool :=
  match l with Loading_model _ _ => true | _ => false end.

(** How many times the model has been loaded, by the lines on stderr. *)
Definition loadings (ls : list log) : nat := length (List.filter is_loading ls).

Definition is_load_model_request (l : line) : bool :=
  match l with
  | Json (JDict items) =>
      Json.eq_str (default JNull (Json.lookup items "operation")) "load_model"
  | _ => false
  end.

(** The loads made, and the one still due when the processor has not
    been initialized. *)
Definition loads_due (s : state) : nat :=
  loadings (stderr s) + (if initialized (processor s) then 0 else 1).

(** The processor with [initialized] set. *)
Definition initialized_version (p : MockGAMAProcessor) : MockGAMAProcessor :=
  {| model_path := model_path p; device := device p;
     quantization := quantization p; initialized := true |}.

(** An operation that leaves the processor and stderr as they are. *)
Definition still {A} (m : M A) : Prop :=
  forall s, processor (m s).2 = processor s /\ stderr (m s).2 = stderr s.

(** An operation after which at most [k] more loads are made or due. *)
Definition due_bounded (k : nat) {A} (m : M A) : Prop :=
  forall s, loads_due (m s).2 <= loads_due s + k.

(** The processor runs on the CPU. *)
Definition on_cpu (s : state) : Prop := device (processor s) = JStr "cpu".

Definition stays_on_cpu {A} (m : M A) : Prop :=
  forall s, on_cpu s -> on_cpu (m s).2.

(** Segment [i] of an audio cut in pieces of [piece] samples: its text,
    its bounds in seconds, and a confidence drawn from the generator. *)
Definition segment_of (E : Env) (piece i : Z) (seg : Segment) : Prop :=
  seg_text seg = word i /\
  seg_start seg = (inject_Z (i * piece) / inject_Z 16000)%Q /\
  seg_end seg = (inject_Z ((i + 1) * piece) / inject_Z 16000)%Q /\
  exists k, seg_confidence seg = (0.8 + 0.2 * random_random E k)%Q.

(** Two bad lines among three requests, the second for an operation
    the worker does not know. *)
Definition mixed_input : list line :=
  [BadJson "{oops"; request 1 "ping" JNull; request 2 "resample" JNull;
   BadJson ""; request 3 "process_audio" (audio_of 3)].

(** A load_model asking for the "cuda" device, then a ping. *)
Definition cuda_wanted : list line :=
  [request 1 "load_model" (JDict [("options", JDict [("device", JStr "cuda")])]);
   request 2 "ping" JNull].

(** A ping reply of a host without CUDA. *)
Definition reports_cpu (r : response) : Prop :=
  forall status dev available,
    resp_result r = Some (Ping_result status dev available) ->
    dev = JStr "cpu" /\ available = 0%Z.

End WorkerTerms.

Module MemoryTerms.

Import Memory PrimFloat.

(** A 6 GB card and a 24 GB card with 1 GB allocated, and a host with no
    card. *)
Definition card_6gb : Probe :=
  {| virtual_memory_used := 8 * GiB;
     virtual_memory_available := 8 * GiB;
     virtual_memory_total := 16 * GiB;
     cuda_is_available := true;
     cuda_memory_allocated := 1 * GiB;
     cuda_memory_reserved := 2 * GiB;
     cuda_max_memory_allocated := 3 * GiB;
     cuda_total_memory := 6 * GiB |}.

Definition card_24gb : Probe :=
  {| virtual_memory_used := 8 * GiB;
     virtual_memory_available := 8 * GiB;
     virtual_memory_total := 16 * GiB;
     cuda_is_available := true;
     cuda_memory_allocated := 1 * GiB;
     cuda_memory_reserved := 2 * GiB;
     cuda_max_memory_allocated := 3 * GiB;
     cuda_total_memory := 24 * GiB |}.

Definition no_card : Probe :=
  {| virtual_memory_used := 8 * GiB;
     virtual_memory_available := 8 * GiB;
     virtual_memory_total := 16 * GiB;
     cuda_is_available := false;
     cuda_memory_allocated := 0;
     cuda_memory_reserved := 0;
     cuda_max_memory_allocated := 0;
     cuda_total_memory := 0 |}.

Definition manager : MemoryManager := {| target_gpu_memory := 5.5 |}.

(** The same manager and the snapshot of the 6 GB card, in binary64. *)
Definition manager64 : Memory64.MemoryManager :=
  {| Memory64.target_gpu_memory := 5.5%float |}.

Definition card_6gb_stats : Memory64.MemoryStats :=
  {| Memory64.gpu_allocated := 1%float;
     Memory64.gpu_cached := 2%float;
     Memory64.gpu_max_allocated := 3%float;
     Memory64.gpu_total := 6%float;
     Memory64.ram_used := 8%float;
     Memory64.ram_available := 8%float;
     Memory64.ram_total := 16%float |}.

End MemoryTerms.

Module ServerTerms.

Import Server.

(** An operation that keeps a property of the state. *)
Definition keeps (I : state -> Prop) {A} (m : M A) : Prop :=
  forall s, I s -> I (m s).2.

(** The cache holds [n]. *)
Definition cached (n : string) (s : state) : Prop := is_Some (loaded_models s !! n).


Definition loading_started (config : ModelConfig) : LoadReply :=
  {| success := true; message := "Model " +:+ name config +:+ " loading started" |}.

(** The detail of the 400 raised for a model that is not loaded. *)
Definition not_loaded_detail (model_name : json) : list piece :=
  [Lit "Model "; Val model_name; Lit " not loaded. Please load it first."].

(** The state after one more record to the logger. *)
Definition logged (l : log) (s : state) : state :=
  {| loaded_models := loaded_models s;
     background_tasks := background_tasks s;
     logs := logs s ++ [l] |}.

(** A server with a device whose backend always succeeds. *)
Definition working_backend : Env :=
  {| cuda_is_available := true;
     memory_allocated := 512;
     max_memory_allocated := 1024;
     Wav2Vec2Processor_from_pretrained := fun _ => Ok 1%N;
     Wav2Vec2Model_from_pretrained := fun _ => Ok 2%N;
     model_to := fun m _ => Ok m;
     extract := fun _ _ audio _ => Ok (audio, [Z.of_nat (length audio)]);
     time_time := 1700000000 |}.

Definition large : ModelConfig :=
  {| name := "wav2vec2-large"; path := "facebook/wav2vec2-large"; parameters := ∅ |}.

(** ["wav2vec2-large"] is in the cache: its load was requested and has run. *)
Definition large_cached : state :=
  (serve working_backend [POST_models_load large; Runs_background_task 0] start).2.

(** A request body, naming a model or not. *)
Definition clip (model : option string) : AudioData :=
  {| audio := [0.25%Q; 0.5%Q];
     sampleRate := 16000;
     options := match model with
                | Some n => {[ "model" := JStr n ]}
                | None => ∅
                end |}.

(** What the three calls of a load come to: the entry to store, or the
    exception of the first call that fails. *)
Definition backend_load (E : Env) (config : ModelConfig) : res ModelData :=
  processor ← Wav2Vec2Processor_from_pretrained E (path config);
  model ← Wav2Vec2Model_from_pretrained E (path config);
  model ← model_to E model (if cuda_is_available E then "cuda" else "cpu");
  mret {| md_processor := processor; md_model := model; md_config := config |}.

(** The default model, as [process_audio] loads it. *)
Definition base : ModelConfig :=
  {| name := "wav2vec2-base"; path := "facebook/wav2vec2-base-960h"; parameters := ∅ |}.

(** A server whose model files cannot be read. *)
Definition broken_backend : Env :=
  {| cuda_is_available := false;
     memory_allocated := 0;
     max_memory_allocated := 0;
     Wav2Vec2Processor_from_pretrained := fun _ => Ok 1%N;
     Wav2Vec2Model_from_pretrained := fun _ => Raise (LibraryError "no such file");
     model_to := fun m _ => Ok m;
     extract := fun _ _ audio _ => Ok (audio, [Z.of_nat (length audio)]);
     time_time := 1700000000 |}.

(** A processing request answered with features. *)
Definition is_processed (r : reply) : bool :=
  match r with Process (Ok _) => true | _ => false end.

Definition processed (rs : list reply) : nat := length (List.filter is_processed rs).

End ServerTerms.

(** * Properties of the stdio worker *)

Module WorkerProperties.

Import GamaOperations WorkerTerms.

(** *** The monad's equations *)

Lemma bind_ok {A B} (m : M A) (f : A -> M B) s a s' :
  m s = (Ok a, s') -> (m ≫= f) s = f a s'.
Proof. intros H. unfold mbind, M_bind. now rewrite H. Qed.

Lemma bind_raise {A B} (m : M A) (f : A -> M B) s e s' :
  m s = (Raise e, s') -> (m ≫= f) s = (Raise e, s').
Proof. intros H. unfold mbind, M_bind. now rewrite H. Qed.

Lemma max_spec a b : Py.max a b = Z.max a b.
Proof. unfold Py.max. destruct (Z.ltb_spec a b); lia. Qed.

Lemma floordiv_ok a b : b <> 0%Z -> Py.floordiv a b = Ok (a / b)%Z.
Proof. intros H. unfold Py.floordiv. now destruct (Z.eqb_spec b 0). Qed.

Lemma for_each_total {A B} (P : A -> B -> Prop) (body : A -> M B) (xs : list A) :
  (forall x s, exists y s', body x s = (Ok y, s') /\ P x y /\ stdout s' = stdout s
      /\ processor s' = processor s /\ stderr s' = stderr s) ->
  forall s, exists ys s', for_each xs body s = (Ok ys, s') /\ Forall2 P xs ys
      /\ stdout s' = stdout s /\ processor s' = processor s /\ stderr s' = stderr s.
Proof.
  intros Hbody. induction xs as [|x xs IH]; intros s.
  - exists [], s. simpl. repeat split; constructor.
  - destruct (Hbody x s) as (y & s1 & Hy & HP & H1 & H2 & H3).
    destruct (IH s1) as (ys & s2 & Hys & HF & H4 & H5 & H6).
    exists (y :: ys), s2. simpl.
    rewrite (bind_ok _ _ _ _ _ Hy), (bind_ok _ _ _ _ _ Hys).
    repeat split; [constructor; assumption | congruence..].
Qed.

Lemma bind_lift_ok {A B} (a : A) (f : A -> M B) s : (lift (Ok a) ≫= f) s = f a s.
Proof. reflexivity. Qed.

Lemma bind_lift_raise {A B} e (f : A -> M B) s : (lift (Raise e) ≫= f) s = (Raise e, s).
Proof. reflexivity. Qed.

Lemma bind_ret {A B} (a : A) (f : A -> M B) s : (mret a ≫= f) s = f a s.
Proof. reflexivity. Qed.

Section WithEnv.

Variable E : Env.

(** *** process_audio *)

Lemma ensure_initialized_ok s :
  exists s', ensure_initialized s = (Ok tt, s') /\ stdout s' = stdout s /\ draws s' = draws s.
Proof.
  unfold ensure_initialized, get_self. unfold mbind at 1, M_bind.
  destruct (initialized (processor s)).
  - exists s. repeat split.
  - eexists. unfold initialize, get_self, print_stderr, set_self, mbind, M_bind. simpl.
    repeat split.
Qed.

Lemma segment_body (segment_length i : Z) s :
  exists seg s',
    (start ← lift (Py.truediv_int (i * segment_length) 16000);
     end_ ← lift (Py.truediv_int ((i + 1) * segment_length) 16000);
     r ← draw (random_random E);
     mret {| seg_text := "Word " +:+ pretty (i + 1)%Z;
             seg_start := start;
             seg_end := end_;
             seg_confidence := 0.8 + 0.2 * r |}) s = (Ok seg, s')
    /\ seg_text seg = word i
    /\ stdout s' = stdout s /\ processor s' = processor s /\ stderr s' = stderr s.
Proof. eexists _, _. split; [reflexivity|]. repeat split. Qed.

(** C10.  On an audio list of [n] samples, whatever the options, the
    state and the numbers drawn, [process_audio] returns, and its result
    has [word_count = max(1, n // 8000)], that many segments,
    [duration = n / 16000], and a transcription that is the texts of the
    segments joined by spaces, the [i]-th text being "Word i+1": all of
    them functions of [n] alone. *)
Theorem process_audio_structure (items : list json) (options : json) (s : state) :
  exists r s',
    process_audio E (JList items) options s = (Ok r, s') /\
    let n := Z.of_nat (length items) in
    word_count r = Z.max 1 (n / 8000) /\
    Z.of_nat (length (segments r)) = word_count r /\
    duration r = (inject_Z n / inject_Z 16000)%Q /\
    transcription r = String.concat " " (map seg_text (segments r)) /\
    map seg_text (segments r) = map word (range (Z.max 1 (n / 8000))).
Proof.
  destruct (ensure_initialized_ok s) as (s1 & Hinit & _ & _).
  set (n := Z.of_nat (length items)).
  set (wc := Z.max 1 (n / 8000)).
  assert (Hwc : wc <> 0%Z) by lia.
  destruct (for_each_total (fun i seg => seg_text seg = word i) _ (range wc)
              (segment_body (n / wc)) s1) as (segs & s2 & Hsegs & Hall & _).
  assert (Hmap : map seg_text segs = map word (range wc)).
  { clear Hsegs. induction Hall; simpl; congruence. }
  eexists _, s2. split.
  - unfold process_audio.
    rewrite (bind_ok _ _ _ _ _ Hinit).
    simpl Json.len. rewrite bind_lift_ok. cbv beta. fold n.
    rewrite (floordiv_ok n 8000), bind_lift_ok by lia. cbv beta.
    rewrite max_spec. fold wc.
    rewrite (floordiv_ok n wc), bind_lift_ok by lia. cbv beta.
    rewrite (bind_ok _ _ _ _ _ Hsegs).
    reflexivity.
  - simpl. repeat split.
    + assert (Hlen : length segs = length (range wc)).
      { rewrite <- (length_map seg_text segs), Hmap, length_map. reflexivity. }
      rewrite Hlen. unfold range. rewrite length_map, length_seq. lia.
    + exact Hmap.
Qed.

(** *** What an operation leaves alone: stdout *)

Lemma quiet_ret {A} (a : A) : quiet (mret a).
Proof. intros s. reflexivity. Qed.

Lemma quiet_lift {A} (r : res A) : quiet (lift r).
Proof. intros s. reflexivity. Qed.

Lemma quiet_get_self : quiet get_self.
Proof. intros s. reflexivity. Qed.

Lemma quiet_set_self p : quiet (set_self p).
Proof. intros s. reflexivity. Qed.

Lemma quiet_print_stderr l : quiet (print_stderr l).
Proof. intros s. reflexivity. Qed.

Lemma quiet_draw f : quiet (draw f).
Proof. intros s. reflexivity. Qed.

Lemma quiet_bind {A B} (m : M A) (f : A -> M B) :
  quiet m -> (forall a, quiet (f a)) -> quiet (m ≫= f).
Proof.
  intros Hm Hf s. unfold mbind, M_bind. specialize (Hm s).
  destruct (m s) as [[a|e] s1]; simpl in *.
  - rewrite Hf. exact Hm.
  - exact Hm.
Qed.

Lemma quiet_try_exceptM {A} (m : M A) (h : exn -> M A) :
  quiet m -> (forall e, quiet (h e)) -> quiet (try_exceptM m h).
Proof.
  intros Hm Hh s. unfold try_exceptM. specialize (Hm s).
  destruct (m s) as [[a|e] s1]; simpl in *.
  - exact Hm.
  - rewrite Hh. exact Hm.
Qed.

Lemma quiet_for_each {A B} (xs : list A) (body : A -> M B) :
  (forall x, quiet (body x)) -> quiet (for_each xs body).
Proof.
  intros Hbody. induction xs as [|x xs IH]; simpl.
  - apply quiet_ret.
  - apply quiet_bind; [apply Hbody|]. intros y.
    apply quiet_bind; [apply IH|]. intros ys. apply quiet_ret.
Qed.

Lemma quiet_if {A} (b : bool) (m1 m2 : M A) :
  quiet m1 -> quiet m2 -> quiet (if b then m1 else m2).
Proof. now destruct b. Qed.

Create HintDb quiet.
#[local] Hint Resolve quiet_ret quiet_lift quiet_get_self quiet_set_self
  quiet_print_stderr quiet_draw quiet_bind quiet_try_exceptM quiet_for_each
  quiet_if : quiet.

Ltac solve_quiet := unfold initialize, new; auto 30 with quiet.

Lemma quiet_initialize : quiet initialize.
Proof. solve_quiet. Qed.

Lemma quiet_new a b c : quiet (new E a b c).
Proof. solve_quiet. Qed.

Lemma quiet_ensure_initialized : quiet ensure_initialized.
Proof.
  unfold ensure_initialized.
  apply quiet_bind; [apply quiet_get_self|]. intros self.
  apply quiet_if; [apply quiet_ret | apply quiet_initialize].
Qed.

#[local] Hint Resolve quiet_initialize quiet_new quiet_ensure_initialized : quiet.

Lemma quiet_ping : quiet ping.
Proof. unfold ping. auto with quiet. Qed.

Lemma quiet_process_audio a o : quiet (process_audio E a o).
Proof. unfold process_audio. auto 30 with quiet. Qed.

Lemma quiet_extract_features a o : quiet (extract_features E a o).
Proof.
  unfold extract_features.
  apply quiet_bind; [auto with quiet|]. intros _.
  apply quiet_bind; [auto with quiet|]. intros rv.
  apply quiet_if; auto 30 with quiet.
Qed.

#[local] Hint Resolve quiet_ping quiet_process_audio quiet_extract_features : quiet.

Lemma quiet_dispatch operation data : quiet (dispatch E operation data).
Proof. unfold dispatch. repeat apply quiet_if; auto 30 with quiet. Qed.

(** *** The shape of what the inner [try] leaves in [result] and [error] *)

Lemma bind_inv {A B} (m : M A) (f : A -> M B) s b s' :
  (m ≫= f) s = (Ok b, s') -> exists a s1, m s = (Ok a, s1) /\ f a s1 = (Ok b, s').
Proof.
  unfold mbind, M_bind. destruct (m s) as [[a|e] s1]; [|discriminate].
  intros H. now exists a, s1.
Qed.

Ltac inv_bind H :=
  let a := fresh "a" in let s1 := fresh "s" in let H1 := fresh "H" in
  apply bind_inv in H; destruct H as (a & s1 & H1 & H).

Lemma dispatch_falls_through operation data s result error s' :
  dispatch E operation data s = (Ok (Falls_through result error), s') ->
  if known operation
  then is_Some result /\ error = None
  else result = None /\ error = Some [Lit "Unknown operation: "; Val operation].
Proof.
  unfold dispatch, known.
  repeat (destruct (Json.eq_str operation _); simpl orb);
    intros H; repeat inv_bind H; inversion H; subst; eauto.
Qed.

Lemma dispatch_breaks operation data s result s' :
  dispatch E operation data s = (Ok (Breaks result), s') ->
  Json.eq_str operation "shutdown" = true /\ stdout s' = stdout s.
Proof.
  intros H. split; [|rewrite <- (quiet_dispatch operation data s); now rewrite H].
  revert H. unfold dispatch.
  repeat (destruct (Json.eq_str operation _); [intros H; repeat inv_bind H; now inversion H|]).
  intros H; now inversion H.
Qed.

(** *** One line of input *)

Lemma answers_exactly_one request s r : answers E request s r -> exactly_one r.
Proof.
  intros (operation & data & _ & _ & _ & H). unfold exactly_one.
  destruct (dispatch E operation data s).1; [destruct (known operation)|];
    destruct H as [H1 H2]; rewrite ?H1, ?H2; eauto.
Qed.

Lemma iteration_emits (l : line) (s : state) :
  stdout (iteration E l s).2 = stdout s \/
  exists request r,
    l = Json request /\ (iteration E l s).1 = Ok Next /\
    stdout (iteration E l s).2 = stdout s ++ [r] /\ answers E request s r.
Proof.
  destruct l as [raw|raw e|request]; [left; reflexivity..|].
  unfold iteration.
  destruct (Json.get request "id" JNull) as [request_id|e] eqn:Hid; [|left; reflexivity].
  destruct (Json.get request "operation" JNull) as [operation|e] eqn:Hop; [|left; reflexivity].
  destruct (Json.get request "data" (JDict [])) as [data|e] eqn:Hdata; [|left; reflexivity].
  rewrite !bind_lift_ok. cbv beta.
  pose proof (quiet_dispatch operation data s) as Hquiet.
  pose proof (dispatch_falls_through operation data s) as Hshape.
  unfold mbind, M_bind, try_exceptM, write_stdout, print_stderr, mret, M_ret. cbv beta.
  destruct (dispatch E operation data s) as [[[result error|result]|e] s1] eqn:Hd;
    simpl in Hquiet; simpl.
  - right. eexists request, _. split; [reflexivity|]. split; [reflexivity|].
    split; [now rewrite Hquiet|].
    exists operation, data. rewrite Hd. repeat split; try assumption.
    simpl. exact (Hshape _ _ _ eq_refl).
  - left. exact Hquiet.
  - right. eexists request, _. split; [reflexivity|]. split; [reflexivity|].
    split; [now rewrite Hquiet|].
    exists operation, data. rewrite Hd. repeat split; assumption.
Qed.

(** *** A whole run *)

Lemma read_loop_emits (lines : list line) (s : state) :
  exists out,
    stdout (read_loop E lines s).2 = stdout s ++ out /\
    Forall (fun r => exists request s0, In (Json request) lines /\ answers E request s0 r) out.
Proof.
  revert s. induction lines as [|l lines IH]; intros s.
  - exists []. split; [simpl; now rewrite app_nil_r | constructor].
  - simpl read_loop. unfold mbind, M_bind.
    destruct (iteration_emits l s) as [Hsame | (request & r & -> & Hnext & Hout & Hans)].
    + destruct (iteration E l s) as [[[|]|e] s1]; simpl in Hsame.
      * destruct (IH s1) as (out & Hout & Hall). exists out. split; [congruence|].
        eapply Forall_impl; [exact Hall|]. intros r (request & s0 & Hin & Hans).
        exists request, s0. split; [now right | assumption].
      * exists []. split; [simpl; now rewrite app_nil_r | constructor].
      * exists []. split; [simpl; now rewrite app_nil_r | constructor].
    + destruct (iteration E (Json request) s) as [[sig|e] s1]; simpl in Hnext, Hout;
        [|discriminate]. inversion Hnext; subst sig.
      destruct (IH s1) as (out & Hout' & Hall). exists (r :: out). split.
      * rewrite Hout', Hout, <- app_assoc. reflexivity.
      * constructor.
        -- exists request, s. split; [now left | assumption].
        -- eapply Forall_impl; [exact Hall|]. intros r' (request' & s0 & Hin & Hans').
           exists request', s0. split; [now right | assumption].
Qed.

(** C4.  Every response a run of [main] writes has exactly one of
    [result] and [error] set, and answers a request of the input: it
    carries that request's id; [result] alone is set when the dispatch of
    a known operation returned, [error] alone when the operation is
    unknown or the dispatch raised. *)
Theorem rpc_envelope (stdin : list line) :
  Forall (fun r =>
            exactly_one r /\
            exists request s0, In (Json request) stdin /\ answers E request s0 r)
         (stdout (main E stdin).2).
Proof.
  unfold main.
  match goal with |- context [(?m ≫= ?f) ?s0] =>
    assert (Hq : stdout ((m ≫= f) s0).2 = stdout (m s0).2) end.
  { unfold mbind, M_bind.
    destruct (read_loop E stdin _) as [[[]|e] s1]; reflexivity. }
  rewrite Hq.
  match goal with |- context [read_loop E stdin ?s0] =>
    destruct (read_loop_emits stdin s0) as (out & Hout & Hall) end.
  rewrite Hout. simpl.
  eapply Forall_impl; [exact Hall|]. intros r (request & s0 & Hin & Hans).
  split; [exact (answers_exactly_one _ _ _ Hans)|]. now exists request, s0.
Qed.

(** *** Shutdown *)

Lemma get_dict items key fallback :
  Json.get (JDict items) key fallback = Ok (default fallback (Json.lookup items key)).
Proof. reflexivity. Qed.

(** C2, as the code has it.  On a request whose operation is
    "shutdown" the loop prints its notice on stderr and ends at once:
    no later line is read, and nothing is written to stdout, not even
    the acknowledgement the [result] local was set to. *)
Theorem shutdown_sends_no_acknowledgement
    (items : list (string * json)) (rest : list line) (s : state) :
  Json.lookup items "operation" = Some (JStr "shutdown") ->
  exists s',
    read_loop E (Json (JDict items) :: rest) s = (Ok tt, s') /\
    stdout s' = stdout s /\
    stderr s' = stderr s ++ [Shutting_down].
Proof.
  intros Hop.
  assert (Hit : exists s', iteration E (Json (JDict items)) s = (Ok Break, s') /\
                  stdout s' = stdout s /\ stderr s' = stderr s ++ [Shutting_down]).
  { eexists. split.
    - unfold iteration. rewrite !get_dict, Hop, !bind_lift_ok. reflexivity.
    - split; reflexivity. }
  destruct Hit as (s' & Hit & Hout & Herr). exists s'. split; [|now split].
  cbn [read_loop]. now rewrite (bind_ok _ _ _ _ _ Hit).
Qed.

(** *** A line that is JSON and no object *)

(** C3, as the code has it.  A line that is valid JSON and not an
    object makes [request.get] raise [AttributeError] outside the inner
    [try]; the outer [except] names [JSONDecodeError] only, so the
    exception leaves the loop, no response is written and the rest of
    the input is never read. *)
Theorem non_object_line_ends_worker (v : json) (rest : list line) (s : state) :
  (forall items, v <> JDict items) ->
  read_loop E (Json v :: rest) s = (Raise (AttributeError (Json.type_name v) "get"), s).
Proof.
  intros Hv. destruct v; try reflexivity. now destruct (Hv items).
Qed.

Lemma bad_json_continues (raw : string) (s : state) :
  exists s',
    iteration E (BadJson raw) s = (Ok Next, s') /\
    stdout s' = stdout s /\ stderr s' = stderr s ++ [Invalid_JSON raw].
Proof. eexists. repeat split. Qed.

(** A line on which [json.loads] raises an exception that is no
    [JSONDecodeError] ends the loop with that exception: nothing is
    written and the rest of the input is never read. *)
Lemma undecodable_line_ends_worker (raw : string) (e : exn) (rest : list line) (s : state) :
  read_loop E (Unparsed raw e :: rest) s = (Raise e, s).
Proof. reflexivity. Qed.

Lemma object_line_never_raises (items : list (string * json)) (s : state) :
  exists sig s', iteration E (Json (JDict items)) s = (Ok sig, s').
Proof.
  unfold iteration. rewrite !get_dict, !bind_lift_ok. cbv beta.
  unfold mbind, M_bind, try_exceptM, write_stdout, print_stderr, mret, M_ret. cbv beta.
  destruct (dispatch E _ _ s) as [[[result error|result]|e] s1]; simpl; eauto.
Qed.

End WithEnv.

(** *** On a host without CUDA *)

Lemma shutdown_sends_no_acknowledgement_witness :
  Json.lookup [("id", JInt 7); ("operation", JStr "shutdown")] "operation"
    = Some (JStr "shutdown") /\
  exists s',
    read_loop cpu_host
      [Json (JDict [("id", JInt 7); ("operation", JStr "shutdown")]);
       request 8 "ping" (JDict [])] (started cpu_host) = (Ok tt, s') /\
    stdout s' = stdout (started cpu_host) /\
    stderr s' = stderr (started cpu_host) ++ [Shutting_down].
Proof.
  split; [reflexivity|].
  apply (shutdown_sends_no_acknowledgement cpu_host). reflexivity.
Defined.

Example shutdown_run :
  main cpu_host [request 6 "ping" (JDict []); request 7 "shutdown" (JDict []);
                 request 8 "ping" (JDict [])]
  = (Ok tt,
     {| processor := processor (started cpu_host);
        stderr := [Initializing (JStr "facebook/gama-7b") (JStr "cpu"); Service_started;
                   Shutting_down; Service_stopped];
        stdout := [{| resp_id := JInt 6;
                      resp_result := Some (Ping_result "ok" (JStr "cpu") 0);
                      resp_error := None |}];
        draws := 0 |}).
Proof. reflexivity. Qed.

Lemma non_object_line_ends_worker_witness :
  (forall items, JInt 42 <> JDict items) /\
  read_loop cpu_host [Json (JInt 42); request 1 "ping" (JDict [])] (started cpu_host)
    = (Raise (AttributeError "int" "get"), started cpu_host).
Proof.
  split; [discriminate|].
  apply (non_object_line_ends_worker cpu_host (JInt 42)). discriminate.
Defined.

Example non_object_run :
  main cpu_host [Json (JInt 42); request 1 "ping" (JDict [])]
  = (Raise (AttributeError "int" "get"), started cpu_host).
Proof. reflexivity. Qed.

(** Whatever the line and the exception, a line [json.loads] refuses
    with something else than [JSONDecodeError] kills the worker: the
    request before it is answered, the one after it never read, and
    the closing notice is not printed. *)
Example undecodable_run (raw : string) (e : exn) :
  (main cpu_host [request 1 "ping" JNull; Unparsed raw e; request 2 "ping" JNull]).1
    = Raise e /\
  map resp_id
      (stdout (main cpu_host
                 [request 1 "ping" JNull; Unparsed raw e; request 2 "ping" JNull]).2)
    = [JInt 1] /\
  stderr (main cpu_host [request 1 "ping" JNull; Unparsed raw e; request 2 "ping" JNull]).2
    = [Initializing (JStr "facebook/gama-7b") (JStr "cpu"); Service_started].
Proof. repeat split. Qed.

Example malformed_then_ping :
  stdout (main cpu_host [BadJson "{oops"; request 1 "ping" (JDict [])]).2
  = [{| resp_id := JInt 1;
        resp_result := Some (Ping_result "ok" (JStr "cpu") 0);
        resp_error := None |}].
Proof. reflexivity. Qed.

Example failures_fill_error_only :
  map (fun r => (resp_id r, resp_result r, resp_error r))
    (stdout (main cpu_host [request 2 "resample" JNull;
                            request 3 "process_audio" JNull;
                            request 4 "extract_features"
                              (JDict [("audio", JDict [("data", JInt 5)])])]).2)
  = [(JInt 2, None, Some [Lit "Unknown operation: "; Val (JStr "resample")]);
     (JInt 3, None, Some [Exn (AttributeError "NoneType" "get")]);
     (JInt 4, None, Some [Exn (TypeError "object of type 'int' has no len()")])].
Proof. reflexivity. Qed.

Example process_audio_of_16001_samples :
  (process_audio cpu_host (JList (repeat (JFloat 0) (Z.to_nat 16001))) JNull
     (started cpu_host)).1
  = Ok {| transcription := "Word 1 Word 2";
          confidence := 0.9;
          segments := [{| seg_text := "Word 1"; seg_start := 0 # 16000;
                          seg_end := 8000 # 16000; seg_confidence := 0.8 + 0.2 * 0.5 |};
                       {| seg_text := "Word 2"; seg_start := 8000 # 16000;
                          seg_end := 16000 # 16000; seg_confidence := 0.8 + 0.2 * 0.5 |}];
          duration := 16001 # 16000;
          word_count := 2;
          processing_time := 500;
          memory_usage := {| peak := 104857600; current := 52428800 |} |}.
Proof. vm_compute. reflexivity. Qed.

End WorkerProperties.

(** * Properties of the memory manager *)

Module MemoryProperties.

Import Memory MemoryTerms PrimFloat.

Lemma ltb_lt (a b : Q) : Py.ltb a b = true <-> (a < b)%Q.
Proof.
  unfold Py.ltb. rewrite negb_true_iff. split.
  - intros H. apply Qnot_le_lt. intros Hle. apply Qle_bool_iff in Hle. congruence.
  - intros H. destruct (Qle_bool b a) eqn:Hle; [|reflexivity].
    apply Qle_bool_iff in Hle. exfalso. exact (Qlt_not_le _ _ H Hle).
Qed.

Lemma min_Qmin (a b : Q) : (Py.min a b == Qmin a b)%Q.
Proof.
  unfold Py.min. destruct (Py.ltb b a) eqn:H.
  - apply ltb_lt in H. symmetry. apply Q.min_r. now apply Qlt_le_weak.
  - symmetry. apply Q.min_l. apply Qnot_lt_le. intros Hlt.
    apply ltb_lt in Hlt. congruence.
Qed.

Lemma max_int_floor (x : Q) : Py.max 1 (Py.int x) = Z.max 1 (Qfloor x).
Proof.
  unfold Py.max, Py.int, Qfloor. destruct x as [n d]. simpl.
  destruct (Z.ltb_spec 1 (n ÷ Z.pos d)) as [H|H].
  - assert (0 <= n)%Z.
    { destruct (Z.le_gt_cases 0 n) as [?|Hneg]; [assumption|].
      pose proof (Z.quot_opp_l n (Z.pos d) ltac:(lia)).
      assert (0 <= (- n) ÷ Z.pos d)%Z by (apply Z.quot_pos; lia). lia. }
    rewrite Z.quot_div_nonneg in * by lia. lia.
  - destruct (Z.le_gt_cases 0 n) as [Hpos|Hneg].
    + rewrite Z.quot_div_nonneg in H by lia. lia.
    + assert (n / Z.pos d < 0)%Z by (apply Z.div_lt_upper_bound; lia). lia.
Qed.

(** The digit [.1f] keeps is within half a unit of the value. *)
Lemma round_half_even_close (x : Q) :
  (Qabs (inject_Z (Py.round_half_even x) - x) <= 1 # 2)%Q.
Proof.
  unfold Py.round_half_even.
  pose proof (Qfloor_le x) as Hlo. pose proof (Qlt_floor x) as Hhi.
  rewrite inject_Z_plus in Hhi. change (inject_Z 1) with 1%Q in Hhi.
  set (f := Qfloor x) in *.
  apply Qabs_Qle_condition.
  destruct (x - inject_Z f ?= 1 # 2)%Q eqn:Hc.
  - apply Qeq_alt in Hc. destruct (Z.even f).
    + split; lra.
    + rewrite inject_Z_plus. change (inject_Z 1) with 1%Q. split; lra.
  - apply Qlt_alt in Hc. split; lra.
  - apply Qgt_alt in Hc. rewrite inject_Z_plus. change (inject_Z 1) with 1%Q. split; lra.
Qed.

Lemma get_memory_stats_ok (P : Probe) : exists stats, get_memory_stats P = Ok stats.
Proof.
  unfold get_memory_stats, Py.truediv_int. change (GiB =? 0)%Z with false. cbv iota.
  destruct (cuda_is_available P); eexists; reflexivity.
Qed.

(** C5, amended.  In binary64 arithmetic, as the code runs.  Let
    [quotient] be the float [(available * 0.8) / per_sample], where
    [available] is the smaller of free device memory and the target.
    With a per-sample estimate equal to zero the call raises
    [ZeroDivisionError]; with a quotient that is infinite or a NaN it
    raises [OverflowError] or [ValueError]; in every other case it
    returns [max(1, floor(quotient))].  Whatever it returns is at least
    1, also when the available memory is zero or negative. *)
Theorem batch_size_floor_at_least_one
    (self : Memory64.MemoryManager) (P : Probe) (stats : Memory64.MemoryStats)
    (sample_batch_memory : PrimFloat.float) (target_memory : option PrimFloat.float) :
  Memory64.get_memory_stats P = Ok stats ->
  let available :=
    Float64.min (Memory64.gpu_total stats - Memory64.gpu_allocated stats)
                (default (Memory64.target_gpu_memory self) target_memory) in
  let quotient := (available * 0.8 / sample_batch_memory)%float in
  Memory64.get_optimal_batch_size self P sample_batch_memory target_memory =
    (if (sample_batch_memory =? 0)%float then Raise ZeroDivisionError
     else match Float64.value quotient with
          | Some q => Ok (Z.max 1 (Qfloor q))
          | None =>
              if PrimFloat.is_nan quotient
              then Raise (ValueError "cannot convert float NaN to integer")
              else Raise (OverflowError "cannot convert float infinity to integer")
          end) /\
  (forall size,
      Memory64.get_optimal_batch_size self P sample_batch_memory target_memory = Ok size ->
      (1 <= size)%Z).
Proof.
  intros Hstats available quotient.
  unfold Memory64.get_optimal_batch_size. rewrite Hstats. cbn [mbind res_bind].
  fold available. unfold Float64.truediv.
  destruct (PrimFloat.eqb sample_batch_memory 0).
  - split; [reflexivity | discriminate].
  - cbn [mbind res_bind]. fold quotient. unfold Float64.int.
    destruct (Float64.value quotient) as [q|].
    + cbn [mbind res_bind mret res_ret]. rewrite max_int_floor.
      split; [reflexivity|]. intros size [= <-]. lia.
    + destruct (PrimFloat.is_nan quotient); split; try reflexivity; discriminate.
Qed.

(** C8.  The memory ceiling written into the configuration is
    [min(total - 0.5, target)], rendered with one decimal and the unit;
    when the device total is below 8 GB, 8-bit loading is switched on
    and the cache off, and otherwise neither key is set; and the
    configuration depends on the snapshot and the target only. *)
Theorem derive_config_policy (self : MemoryManager) (P : Probe) :
  exists stats cfg ceiling,
    get_memory_stats P = Ok stats /\
    optimize_model_config self P = Ok cfg /\
    (ceiling == Qmin (gpu_total stats - 0.5) (target_gpu_memory self))%Q /\
    max_memory cfg = [(0%Z, Py.format_1f ceiling +:+ "GB")] /\
    ((gpu_total stats < 8)%Q -> load_in_8bit cfg = Some true /\ use_cache cfg = Some false) /\
    (~ (gpu_total stats < 8)%Q -> load_in_8bit cfg = None /\ use_cache cfg = None) /\
    (forall self' P',
        get_memory_stats P' = Ok stats ->
        target_gpu_memory self' = target_gpu_memory self ->
        optimize_model_config self' P' = Ok cfg).
Proof.
  destruct (get_memory_stats_ok P) as (stats & Hstats).
  eexists stats, _, _. split; [assumption|]. split.
  { unfold optimize_model_config. rewrite Hstats. reflexivity. }
  split; [apply min_Qmin|]. split; [reflexivity|]. cbn [load_in_8bit use_cache].
  split; [|split].
  - intros H. apply ltb_lt in H. now rewrite H.
  - intros H. destruct (Py.ltb (gpu_total stats) 8) eqn:Hlt; [|easy].
    apply ltb_lt in Hlt. contradiction.
  - intros self' P' Hstats' Htarget. unfold optimize_model_config.
    rewrite Hstats', Htarget. reflexivity.
Qed.

(** *** On a 6 GB card, a 24 GB card and a host with no card *)

(** A per-sample estimate of zero, of either sign, and one so small
    that the quotient overflows: no batch size comes back. *)
Lemma zero_sample_has_no_batch_size :
  Memory64.get_optimal_batch_size manager64 card_6gb 0%float None
    = Raise ZeroDivisionError /\
  Memory64.get_optimal_batch_size manager64 card_6gb (-0)%float None
    = Raise ZeroDivisionError /\
  Memory64.get_optimal_batch_size manager64 card_6gb 0x1p-1074%float None
    = Raise (OverflowError "cannot convert float infinity to integer").
Proof. repeat split; vm_compute; reflexivity. Qed.

Lemma batch_size_floor_at_least_one_witness :
  Memory64.get_memory_stats card_6gb = Ok card_6gb_stats /\
  (let available :=
     Float64.min (Memory64.gpu_total card_6gb_stats - Memory64.gpu_allocated card_6gb_stats)
                 (default (Memory64.target_gpu_memory manager64) (Some (-3)%float)) in
   let quotient := (available * 0.8 / 0.5)%float in
   Memory64.get_optimal_batch_size manager64 card_6gb 0.5%float (Some (-3)%float) =
     (if (0.5 =? 0)%float then Raise ZeroDivisionError
      else match Float64.value quotient with
           | Some q => Ok (Z.max 1 (Qfloor q))
           | None =>
               if PrimFloat.is_nan quotient
               then Raise (ValueError "cannot convert float NaN to integer")
               else Raise (OverflowError "cannot convert float infinity to integer")
           end) /\
   (forall size,
       Memory64.get_optimal_batch_size manager64 card_6gb 0.5%float (Some (-3)%float)
         = Ok size ->
       (1 <= size)%Z)).
Proof.
  assert (H : Memory64.get_memory_stats card_6gb = Ok card_6gb_stats)
    by (vm_compute; reflexivity).
  split; [exact H|].
  exact (batch_size_floor_at_least_one manager64 card_6gb card_6gb_stats
           0.5%float (Some (-3)%float) H).
Defined.

(** The batch sizes as Python computes them.  [0.7 * 0.8 / 0.07] is
    [7.999999999999998] in binary64, [9.1 * 0.8 / 0.07] is [104.0] and
    [3.4 * 0.8 / 1.36] is [2.0]. *)
Example batch_sizes :
  Memory64.get_optimal_batch_size manager64 card_6gb 0.5%float None = Ok 8%Z /\
  Memory64.get_optimal_batch_size manager64 card_6gb 0.5%float (Some 0%float) = Ok 1%Z /\
  Memory64.get_optimal_batch_size manager64 card_6gb 0.5%float (Some (-3)%float) = Ok 1%Z /\
  Memory64.get_optimal_batch_size manager64 no_card 0.5%float None = Ok 1%Z /\
  Memory64.get_optimal_batch_size manager64 card_6gb (-0.5)%float None = Ok 1%Z /\
  Memory64.get_optimal_batch_size manager64 card_6gb 0.07%float (Some 0.7%float) = Ok 7%Z /\
  Memory64.get_optimal_batch_size manager64 card_24gb 0.07%float (Some 9.1%float) = Ok 104%Z /\
  Memory64.get_optimal_batch_size manager64 card_6gb 1.36%float (Some 3.4%float) = Ok 2%Z /\
  Memory64.get_optimal_batch_size manager64 card_6gb 1%float (Some PrimFloat.nan)
    = Ok 4%Z /\
  Memory64.get_optimal_batch_size manager64 card_6gb PrimFloat.infinity
      (Some PrimFloat.infinity)
    = Ok 1%Z /\
  Memory64.get_optimal_batch_size manager64 card_6gb PrimFloat.nan None
    = Raise (ValueError "cannot convert float NaN to integer").
Proof. repeat split; vm_compute; reflexivity. Qed.

Example configs :
  optimize_model_config manager card_6gb
    = Ok {| torch_dtype := "torch.float16"; device_map := "auto";
            load_in_8bit := Some true; use_cache := Some false;
            gradient_checkpointing := Some true;
            max_memory := [(0%Z, "5.5GB")] |} /\
  optimize_model_config {| target_gpu_memory := 30 |} card_24gb
    = Ok {| torch_dtype := "torch.float16"; device_map := "auto";
            load_in_8bit := None; use_cache := None;
            gradient_checkpointing := None;
            max_memory := [(0%Z, "23.5GB")] |} /\
  optimize_model_config manager no_card
    = Ok {| torch_dtype := "torch.float16"; device_map := "auto";
            load_in_8bit := Some true; use_cache := Some false;
            gradient_checkpointing := Some true;
            max_memory := [(0%Z, "-0.5GB")] |}.
Proof. repeat split; vm_compute; reflexivity. Qed.

Example format_1f_examples :
  Py.format_1f 5.5 = "5.5" /\ Py.format_1f (-0.5) = "-0.5" /\ Py.format_1f 5.25 = "5.2"
  /\ Py.format_1f 15.96 = "16.0" /\ Py.format_1f (-0.04) = "-0.0".
Proof. repeat split; vm_compute; reflexivity. Qed.

End MemoryProperties.

(** * Properties of the HTTP facade *)

Module ServerProperties.

Import Server ServerTerms.

(** *** What every operation keeps: a property of the cache *)

Section Keeps.

Variable I : state -> Prop.

Lemma keeps_ret {A} (a : A) : keeps I (mret a).
Proof. intros s H. exact H. Qed.

Lemma keeps_lift {A} (r : res A) : keeps I (lift r).
Proof. intros s H. exact H. Qed.

Lemma keeps_raise {A} e : keeps I (raise e : M A).
Proof. intros s H. exact H. Qed.

Lemma keeps_bind {A B} (m : M A) (f : A -> M B) :
  keeps I m -> (forall a, keeps I (f a)) -> keeps I (m ≫= f).
Proof.
  intros Hm Hf s Hs. unfold mbind, M_bind. specialize (Hm s Hs).
  destruct (m s) as [[a|e] s1]; simpl in *; [now apply Hf | exact Hm].
Qed.

Lemma keeps_try_exceptM {A} (m : M A) (h : exn -> M A) :
  keeps I m -> (forall e, keeps I (h e)) -> keeps I (try_exceptM m h).
Proof.
  intros Hm Hh s Hs. unfold try_exceptM. specialize (Hm s Hs).
  destruct (m s) as [[a|e] s1]; simpl in *; [exact Hm | now apply Hh].
Qed.

Lemma keeps_if {A} (b : bool) (m1 m2 : M A) :
  keeps I m1 -> keeps I m2 -> keeps I (if b then m1 else m2).
Proof. now destruct b. Qed.

End Keeps.

Lemma keeps_cached_logger n l : keeps (cached n) (logger l).
Proof. intros s H. exact H. Qed.

Lemma keeps_cached_add_task n c : keeps (cached n) (add_task c).
Proof. intros s H. exact H. Qed.

Lemma keeps_cached_contains n k : keeps (cached n) (contains k).
Proof. intros s H. exact H. Qed.

Lemma keeps_cached_getitem n k : keeps (cached n) (getitem k).
Proof. intros s H. exact H. Qed.

Lemma keeps_cached_keys n : keeps (cached n) keys.
Proof. intros s H. exact H. Qed.

Lemma keeps_cached_store n k v : keeps (cached n) (store k v).
Proof.
  intros s H. unfold cached, store in *. simpl.
  destruct (decide (k = n)) as [->|Hne].
  - rewrite lookup_insert_eq. eauto.
  - now rewrite lookup_insert_ne.
Qed.

Lemma keeps_cached_take_task n i : keeps (cached n) (take_task i).
Proof. intros s H. exact H. Qed.

Create HintDb keeps.
#[local] Hint Resolve keeps_ret keeps_lift keeps_raise keeps_bind keeps_try_exceptM
  keeps_if keeps_cached_logger keeps_cached_add_task keeps_cached_contains
  keeps_cached_getitem keeps_cached_keys keeps_cached_store keeps_cached_take_task : keeps.

Section WithEnv.

Variable E : Env.

Lemma keeps_cached_load_model_task n config : keeps (cached n) (load_model_task E config).
Proof. unfold load_model_task. auto 20 with keeps. Qed.

Lemma keeps_cached_load_model n config : keeps (cached n) (load_model config).
Proof. unfold load_model. auto 20 with keeps. Qed.

Lemma keeps_cached_health_check n : keeps (cached n) (health_check E).
Proof. unfold health_check. auto 20 with keeps. Qed.

#[local] Hint Resolve keeps_cached_load_model_task : keeps.

Lemma keeps_cached_process_audio n data : keeps (cached n) (process_audio E data).
Proof.
  unfold process_audio.
  apply keeps_try_exceptM; [|auto with keeps].
  apply keeps_bind; [auto with keeps|]. intros loaded.
  apply keeps_bind; [auto 20 with keeps|]. intros time_bound.
  apply keeps_bind; [auto with keeps|]. intros model_data.
  apply keeps_bind; [auto with keeps|]. intros [features_list shape].
  auto 20 with keeps.
Qed.

Lemma handle_event_cached n ev s : cached n s -> cached n (handle_event E ev s).2.
Proof.
  intros H. destruct ev as [|config|data|i]; simpl.
  - pose proof (keeps_cached_health_check n s H). now destruct (health_check E s).
  - pose proof (keeps_cached_load_model n config s H). now destruct (load_model config s).
  - pose proof (keeps_cached_process_audio n data s H). now destruct (process_audio E data s).
  - destruct (background_tasks s !! i) as [config|]; simpl; [|exact H].
    now apply keeps_cached_load_model_task.
Qed.



Lemma load_model_not_cached config s :
  loaded_models s !! name config = None ->
  load_model config s =
    (Ok (loading_started config),
     {| loaded_models := loaded_models s;
        background_tasks := background_tasks s ++ [config];
        logs := logs s |}).
Proof.
  intros H. unfold load_model, try_exceptM, contains, mbind, M_bind.
  rewrite bool_decide_eq_false_2; [reflexivity|]. rewrite H. now intros [? ?].
Qed.


(** *** GET /health *)

Lemma usage_in_unit_interval (allocated peak : Z) :
  (0 <= allocated <= peak)%Z -> (0 < peak)%Z ->
  (0 <= inject_Z allocated / inject_Z peak <= 1)%Q.
Proof.
  intros [Hlo Hhi] Hpeak.
  assert (Hp : (inject_Z 0 < inject_Z peak)%Q) by (now rewrite <- Zlt_Qlt).
  split.
  - apply Qle_shift_div_l; [exact Hp|]. rewrite Qmult_0_l.
    change 0%Q with (inject_Z 0). now rewrite <- Zle_Qle.
  - apply Qle_shift_div_r; [exact Hp|]. rewrite Qmult_1_l.
    now rewrite <- Zle_Qle.
Qed.

(** C6.  [GET /health] always returns, leaving the state as it is: no
    division by zero can be raised.  [memory_usage] is 0 when there is
    no device or the peak is 0, is [allocated / peak] otherwise, and lies
    in [0, 1] whenever [0 <= allocated <= peak]. *)
Theorem health_memory_usage (s : state) :
  exists r,
    health_check E s = (Ok r, s) /\
    gpu_available r = cuda_is_available E /\
    (cuda_is_available E = false \/ max_memory_allocated E = 0%Z ->
       memory_usage r = 0%Q) /\
    (cuda_is_available E = true -> (0 < max_memory_allocated E)%Z ->
       memory_usage r = (inject_Z (memory_allocated E) / inject_Z (max_memory_allocated E))%Q) /\
    ((0 <= memory_allocated E <= max_memory_allocated E)%Z ->
       (0 <= memory_usage r <= 1)%Q).
Proof.
  unfold health_check, try_exceptM, keys, Py.truediv_int, lift, mbind, M_bind, mret, M_ret.
  destruct (cuda_is_available E) eqn:Hcuda.
  - destruct (Z.gtb_spec (max_memory_allocated E) 0) as [Hpos|Hnonpos].
    + destruct (Z.eqb_spec (max_memory_allocated E) 0) as [Hz|_]; [lia|].
      eexists. split; [reflexivity|]. simpl. repeat split.
      * intros [Hf|Hz]; [discriminate | lia].
      * apply usage_in_unit_interval; [assumption | lia].
      * apply usage_in_unit_interval; [assumption | lia].
    + eexists. split; [reflexivity|]. simpl. repeat split; try lia; easy.
  - eexists. split; [reflexivity|]. simpl. repeat split; try discriminate; easy.
Qed.

(** *** POST /process/wav2vec2 *)

(** C7, as the code has it.  A request naming a model that is neither
    loaded nor the default raises [HTTPException(400)] inside the [try];
    the [except Exception] below catches it and raises
    [HTTPException(500)] in its place, the same status a backend failure
    gets. *)
Theorem unknown_model_answered_500 (data : AudioData) (s : state) (n : string) :
  options data !! "model" = Some (JStr n) ->
  n <> "wav2vec2-base" ->
  loaded_models s !! n = None ->
  process_audio E data s =
    (Raise (HTTPException 500 [Exn (HTTPException 400 (not_loaded_detail (JStr n)))]),
     logged (Processing_failed (HTTPException 400 (not_loaded_detail (JStr n)))) s).
Proof.
  intros Hmodel Hname Hnone.
  unfold process_audio, try_exceptM, contains, mbind, M_bind. rewrite Hmodel. simpl.
  rewrite bool_decide_eq_false_2 by (rewrite Hnone; now intros [? ?]).
  destruct (String.eqb_spec n "wav2vec2-base") as [Heq|_]; [contradiction|].
  reflexivity.
Qed.

Lemma backend_failure_answered_500 (data : AudioData) (s : state) (n : string)
    (d : ModelData) (e : exn) :
  default (JStr "wav2vec2-base") (options data !! "model") = JStr n ->
  loaded_models s !! n = Some d ->
  extract E (md_processor d) (md_model d) (audio data) (sampleRate data) = Raise e ->
  process_audio E data s =
    (Raise (HTTPException 500 [Exn e]), logged (Processing_failed e) s).
Proof.
  intros Hmodel Hsome Hextract.
  unfold process_audio, try_exceptM, contains, getitem, lift, mbind, M_bind.
  rewrite Hmodel, Hsome. rewrite bool_decide_eq_true_2 by eauto.
  simpl. rewrite Hsome, Hextract. reflexivity.
Qed.

(** C9, as the code has it.  When the named model is already loaded
    and the inference succeeds, building the metadata reads the local
    [time], which only the default-model branch binds: the request ends
    in [UnboundLocalError], answered with status 500. *)
Theorem loaded_model_request_fails_at_timestamp (data : AudioData) (s : state) (n : string)
    (d : ModelData) (features_list : list Q) (shape : list Z) :
  default (JStr "wav2vec2-base") (options data !! "model") = JStr n ->
  loaded_models s !! n = Some d ->
  extract E (md_processor d) (md_model d) (audio data) (sampleRate data)
    = Ok (features_list, shape) ->
  process_audio E data s =
    (Raise (HTTPException 500 [Exn (UnboundLocalError "time")]),
     logged (Processing_failed (UnboundLocalError "time")) s).
Proof.
  intros Hmodel Hsome Hextract.
  unfold process_audio, try_exceptM, contains, getitem, lift, mbind, M_bind.
  rewrite Hmodel, Hsome. rewrite bool_decide_eq_true_2 by eauto.
  simpl. rewrite Hsome, Hextract. reflexivity.
Qed.

(** The one path on which [time] is bound: the default model, not yet
    in the cache, loaded on the spot. *)
Lemma fresh_default_load_succeeds (data : AudioData) (s : state)
    (p m m' : handle) (features_list : list Q) (shape : list Z) :
  default (JStr "wav2vec2-base") (options data !! "model") = JStr "wav2vec2-base" ->
  loaded_models s !! "wav2vec2-base" = None ->
  Wav2Vec2Processor_from_pretrained E "facebook/wav2vec2-base-960h" = Ok p ->
  Wav2Vec2Model_from_pretrained E "facebook/wav2vec2-base-960h" = Ok m ->
  model_to E m (if cuda_is_available E then "cuda" else "cpu") = Ok m' ->
  extract E p m' (audio data) (sampleRate data) = Ok (features_list, shape) ->
  (process_audio E data s).1 =
    Ok {| features := features_list;
          metadata := {| meta_model := JStr "wav2vec2-base";
                         meta_shape := shape;
                         meta_timestamp := time_time E |} |}.
Proof.
  intros Hmodel Hnone Hp Hm Hto Hextract.
  unfold process_audio, try_exceptM, contains, getitem, load_model_task, try_exceptM,
    store, logger, lift, mbind, M_bind.
  rewrite Hmodel. rewrite bool_decide_eq_false_2 by (rewrite Hnone; now intros [? ?]).
  simpl. rewrite Hp, Hm, Hto. simpl. rewrite lookup_insert_eq. simpl.
  rewrite Hextract. reflexivity.
Qed.

End WithEnv.

(** *** On a server whose backend always succeeds *)


(** *** On a server whose model files cannot be read *)


(** *** On a server whose backend always succeeds: health and processing *)

Lemma health_memory_usage_witness :
  (0 <= memory_allocated working_backend <= max_memory_allocated working_backend)%Z /\
  exists r,
    health_check working_backend start = (Ok r, start) /\
    memory_usage r = (inject_Z 512 / inject_Z 1024)%Q /\
    (0 <= memory_usage r <= 1)%Q.
Proof.
  assert (H : (0 <= memory_allocated working_backend
                 <= max_memory_allocated working_backend)%Z) by (simpl; lia).
  split; [exact H|].
  destruct (health_memory_usage working_backend start) as (r & Hr & _ & _ & Hq & Hin).
  exists r. split; [exact Hr|]. split; [|exact (Hin H)].
  apply Hq; [reflexivity | simpl; lia].
Defined.

Example health_replies :
  (health_check working_backend start).1
    = Ok {| status := "ok"; models := []; gpu_available := true;
            memory_usage := inject_Z 512 / inject_Z 1024 |} /\
  (health_check
     {| cuda_is_available := true; memory_allocated := 0; max_memory_allocated := 0;
        Wav2Vec2Processor_from_pretrained := fun _ => Ok 1%N;
        Wav2Vec2Model_from_pretrained := fun _ => Ok 2%N;
        model_to := fun m _ => Ok m;
        extract := fun _ _ audio _ => Ok (audio, []);
        time_time := 0 |} start).1
    = Ok {| status := "ok"; models := []; gpu_available := true; memory_usage := 0 |}.
Proof. split; reflexivity. Qed.

Lemma unknown_model_answered_500_witness :
  options (clip (Some "whisper")) !! "model" = Some (JStr "whisper") /\
  "whisper" <> "wav2vec2-base" /\
  loaded_models large_cached !! "whisper" = None /\
  process_audio working_backend (clip (Some "whisper")) large_cached =
    (Raise (HTTPException 500
              [Exn (HTTPException 400 (not_loaded_detail (JStr "whisper")))]),
     logged (Processing_failed (HTTPException 400 (not_loaded_detail (JStr "whisper"))))
       large_cached).
Proof.
  assert (H1 : options (clip (Some "whisper")) !! "model" = Some (JStr "whisper"))
    by reflexivity.
  assert (H2 : "whisper" <> "wav2vec2-base") by discriminate.
  assert (H3 : loaded_models large_cached !! "whisper" = None) by (vm_compute; reflexivity).
  split; [exact H1|]. split; [exact H2|]. split; [exact H3|].
  exact (unknown_model_answered_500 working_backend _ _ _ H1 H2 H3).
Defined.

Lemma loaded_model_request_fails_at_timestamp_witness :
  default (JStr "wav2vec2-base") (options (clip (Some "wav2vec2-large")) !! "model")
    = JStr "wav2vec2-large" /\
  loaded_models large_cached !! "wav2vec2-large"
    = Some {| md_processor := 1%N; md_model := 2%N; md_config := large |} /\
  process_audio working_backend (clip (Some "wav2vec2-large")) large_cached =
    (Raise (HTTPException 500 [Exn (UnboundLocalError "time")]),
     logged (Processing_failed (UnboundLocalError "time")) large_cached).
Proof.
  assert (H1 : default (JStr "wav2vec2-base")
                 (options (clip (Some "wav2vec2-large")) !! "model")
               = JStr "wav2vec2-large") by reflexivity.
  assert (H2 : loaded_models large_cached !! "wav2vec2-large"
               = Some {| md_processor := 1%N; md_model := 2%N; md_config := large |})
    by (vm_compute; reflexivity).
  split; [exact H1|]. split; [exact H2|].
  exact (loaded_model_request_fails_at_timestamp working_backend _ _ _ _ _ _ H1 H2 eq_refl).
Defined.

Example default_model_twice :
  (serve working_backend
     [POST_process_wav2vec2 (clip None); POST_process_wav2vec2 (clip None)] start).1
  = [Process (Ok {| features := [0.25%Q; 0.5%Q];
                    metadata := {| meta_model := JStr "wav2vec2-base";
                                   meta_shape := [2%Z];
                                   meta_timestamp := 1700000000 |} |});
     Process (Raise (HTTPException 500 [Exn (UnboundLocalError "time")]))].
Proof. vm_compute. reflexivity. Qed.

End ServerProperties.

(** * More of the stdio worker *)

Module WorkerCoverage.

Import GamaOperations WorkerTerms WorkerProperties.

Section WithEnv.

Variable E : Env.

(** *** What each operation does to the processor and to stderr *)

Lemma ensure_initialized_state (s : state) :
  ensure_initialized s =
    (Ok tt,
     if initialized (processor s) then s
     else {| processor := initialized_version (processor s);
             stderr := stderr s ++ [Loading_model (model_path (processor s))
                                      (device (processor s))];
             stdout := stdout s;
             draws := draws s |}).
Proof.
  unfold ensure_initialized, get_self. unfold mbind at 1, M_bind.
  destruct (initialized (processor s)); reflexivity.
Qed.

Lemma ensure_initialized_loads_due (s : state) :
  loads_due (ensure_initialized s).2 = loads_due s.
Proof.
  rewrite ensure_initialized_state. unfold loads_due, loadings.
  destruct (initialized (processor s)) eqn:Hinit; simpl; [now rewrite Hinit|].
  rewrite List.filter_app, length_app. simpl. lia.
Qed.

Lemma still_ret {A} (a : A) : still (mret a).
Proof. intros s. split; reflexivity. Qed.

Lemma still_lift {A} (r : res A) : still (lift r).
Proof. intros s. split; reflexivity. Qed.

Lemma still_get_self : still get_self.
Proof. intros s. split; reflexivity. Qed.

Lemma still_draw f : still (draw f).
Proof. intros s. split; reflexivity. Qed.

Lemma still_write_stdout r : still (write_stdout r).
Proof. intros s. split; reflexivity. Qed.

Lemma still_bind {A B} (m : M A) (f : A -> M B) :
  still m -> (forall a, still (f a)) -> still (m ≫= f).
Proof.
  intros Hm Hf s. unfold mbind, M_bind. specialize (Hm s).
  destruct (m s) as [[a|e] s1]; simpl in *; [|exact Hm].
  destruct (Hf a s1) as [H1 H2]. destruct Hm as [H3 H4]. split; congruence.
Qed.

Lemma still_for_each {A B} (xs : list A) (body : A -> M B) :
  (forall x, still (body x)) -> still (for_each xs body).
Proof.
  intros Hbody. induction xs as [|x xs IH]; simpl.
  - apply still_ret.
  - apply still_bind; [apply Hbody|]. intros y.
    apply still_bind; [apply IH|]. intros ys. apply still_ret.
Qed.

Lemma still_if {A} (b : bool) (m1 m2 : M A) :
  still m1 -> still m2 -> still (if b then m1 else m2).
Proof. now destruct b. Qed.

Create HintDb still.
#[local] Hint Resolve still_ret still_lift still_get_self still_draw still_write_stdout
  still_bind still_for_each still_if : still.

Lemma still_loads_due {A} (m : M A) (s : state) :
  still m -> loads_due (m s).2 = loads_due s.
Proof. intros H. destruct (H s) as [H1 H2]. unfold loads_due. now rewrite H1, H2. Qed.

(** After the lazy initialization, an operation that is [still]. *)
Lemma after_ensure_initialized {A} (k : M A) (s : state) :
  still k ->
  processor ((ensure_initialized;; k) s).2 = processor (ensure_initialized s).2 /\
  stderr ((ensure_initialized;; k) s).2 = stderr (ensure_initialized s).2.
Proof.
  intros Hk. unfold mbind, M_bind. rewrite ensure_initialized_state. simpl.
  match goal with |- context [k ?s0] => destruct (Hk s0) as [H1 H2];
    destruct (k s0) as [[a|e] s1] end; simpl in *; now split.
Qed.

Lemma process_audio_after (a o : json) (s : state) :
  processor (process_audio E a o s).2 = processor (ensure_initialized s).2 /\
  stderr (process_audio E a o s).2 = stderr (ensure_initialized s).2.
Proof. unfold process_audio. apply after_ensure_initialized. auto 30 with still. Qed.

Lemma extract_features_after (a o : json) (s : state) :
  processor (extract_features E a o s).2 = processor (ensure_initialized s).2 /\
  stderr (extract_features E a o s).2 = stderr (ensure_initialized s).2.
Proof.
  unfold extract_features. apply after_ensure_initialized.
  apply still_bind; [auto with still|]. intros rv.
  apply still_if; auto 30 with still.
Qed.

(** *** Loads made or due *)

Lemma due_still {A} (m : M A) : still m -> due_bounded 0 m.
Proof. intros H s. rewrite (still_loads_due m s H). lia. Qed.

Lemma due_weaken {A} (m : M A) k : due_bounded 0 m -> due_bounded k m.
Proof. intros H s. specialize (H s). lia. Qed.

Lemma due_bind {A B} (m : M A) (f : A -> M B) k :
  due_bounded 0 m -> (forall a, due_bounded k (f a)) -> due_bounded k (m ≫= f).
Proof.
  intros Hm Hf s. unfold mbind, M_bind. specialize (Hm s).
  destruct (m s) as [[a|e] s1]; simpl in *; [|lia].
  specialize (Hf a s1). lia.
Qed.

Lemma due_bind_k {A B} (m : M A) (f : A -> M B) k :
  due_bounded k m -> (forall a, due_bounded 0 (f a)) -> due_bounded k (m ≫= f).
Proof.
  intros Hm Hf s. unfold mbind, M_bind. specialize (Hm s).
  destruct (m s) as [[a|e] s1]; simpl in *; [|lia].
  specialize (Hf a s1). lia.
Qed.

Lemma due_try_exceptM {A} (m : M A) (h : exn -> M A) k :
  due_bounded k m -> (forall e, due_bounded 0 (h e)) -> due_bounded k (try_exceptM m h).
Proof.
  intros Hm Hh s. unfold try_exceptM. specialize (Hm s).
  destruct (m s) as [[a|e] s1]; simpl in *; [lia|].
  specialize (Hh e s1). lia.
Qed.

Lemma due_print_stderr (l : log) : is_loading l = false -> due_bounded 0 (print_stderr l).
Proof.
  intros Hl s. unfold loads_due, loadings. simpl.
  rewrite List.filter_app, length_app. simpl. rewrite Hl. simpl. lia.
Qed.

Lemma due_ensure_initialized : due_bounded 0 ensure_initialized.
Proof. intros s. rewrite ensure_initialized_loads_due. lia. Qed.

Lemma due_process_audio (a o : json) : due_bounded 0 (process_audio E a o).
Proof.
  intros s. destruct (process_audio_after a o s) as [H1 H2].
  unfold loads_due. rewrite H1, H2. apply due_ensure_initialized.
Qed.

Lemma due_extract_features (a o : json) : due_bounded 0 (extract_features E a o).
Proof.
  intros s. destruct (extract_features_after a o s) as [H1 H2].
  unfold loads_due. rewrite H1, H2. apply due_ensure_initialized.
Qed.

(** A fresh processor, initialized: one load, whatever was due. *)
Lemma due_new_initialize {A} (path dev quant : json) (a : A) :
  due_bounded 1 (new E path dev quant;; initialize;; mret a).
Proof.
  intros s. unfold loads_due, loadings. simpl.
  rewrite !List.filter_app, !length_app. simpl.
  destruct (initialized (processor s)); lia.
Qed.

Lemma due_dispatch (operation data : json) :
  due_bounded (if Json.eq_str operation "load_model" then 1 else 0)
              (dispatch E operation data).
Proof.
  unfold dispatch.
  destruct (Json.eq_str operation "ping") eqn:Hping.
  { apply due_weaken, due_still. unfold ping. auto with still. }
  destruct (Json.eq_str operation "process_audio") eqn:Hpa.
  { apply due_weaken. repeat (apply due_bind; [apply due_still; solve [auto with still]|]; intros ?).
    apply due_bind; [apply due_process_audio|]. intros ?. apply due_still. auto with still. }
  destruct (Json.eq_str operation "extract_features") eqn:Hef.
  { apply due_weaken. repeat (apply due_bind; [apply due_still; solve [auto with still]|]; intros ?).
    apply due_bind; [apply due_extract_features|]. intros ?. apply due_still. auto with still. }
  destruct (Json.eq_str operation "load_model") eqn:Hlm.
  { repeat (apply due_bind; [apply due_still; solve [auto with still]|]; intros ?).
    apply due_new_initialize. }
  destruct (Json.eq_str operation "shutdown").
  { apply due_bind; [now apply due_print_stderr|]. intros ?. apply due_still. auto with still. }
  apply due_still. auto with still.
Qed.

Lemma due_iteration (l : line) :
  due_bounded (if is_load_model_request l then 1 else 0) (iteration E l).
Proof.
  destruct l as [raw|raw e|request].
  { cbn [is_load_model_request]. unfold iteration.
    apply due_bind; [now apply due_print_stderr|]. intros ?. apply due_still. auto with still. }
  { cbn [is_load_model_request]. unfold iteration. apply due_still. auto with still. }
  destruct request;
    try (cbn [is_load_model_request]; apply due_still; intros st; split; reflexivity).
  cbn [is_load_model_request]. unfold iteration. intros st.
  rewrite !get_dict, !bind_lift_ok. cbv beta. revert st.
  apply due_bind_k.
  - apply due_try_exceptM; [apply due_dispatch|]. intros e.
    apply due_bind; [now apply due_print_stderr|]. intros ?. apply due_still. auto with still.
  - intros [result error|result]; apply due_still; auto with still.
Qed.

Lemma due_read_loop (lines : list line) (s : state) :
  loads_due (read_loop E lines s).2
    <= loads_due s + length (List.filter is_load_model_request lines).
Proof.
  revert s. induction lines as [|l lines IH]; intros s; [simpl; lia|].
  cbn [read_loop List.filter]. unfold mbind, M_bind.
  pose proof (due_iteration l s) as Hl.
  destruct (iteration E l s) as [[[|]|e] s1]; simpl in Hl.
  - specialize (IH s1). destruct (is_load_model_request l); simpl; lia.
  - destruct (is_load_model_request l); simpl; lia.
  - destruct (is_load_model_request l); simpl; lia.
Qed.

(** X2.  The model is loaded lazily and once.  Over a whole run, the
    number of "Loading model" lines on stderr is at most one more than
    the number of load_model requests in the input. *)
Theorem model_loaded_once_per_request (stdin : list line) :
  loadings (stderr (main E stdin).2)
    <= 1 + length (List.filter is_load_model_request stdin).
Proof.
  unfold main.
  pose proof (due_read_loop stdin (started E)) as H.
  assert (Hstart : loads_due (started E) = 1) by reflexivity.
  unfold mbind, M_bind.
  destruct (read_loop E stdin (started E)) as [[[]|e] s1]; simpl in *.
  - unfold loadings in *. rewrite List.filter_app, length_app. simpl.
    unfold loads_due, loadings in H. lia.
  - unfold loads_due, loadings in H. unfold loadings. lia.
Qed.

(** *** One response per request, in order *)

Lemma iteration_answers_object (items : list (string * json)) (s : state) :
  Json.eq_str (default JNull (Json.lookup items "operation")) "shutdown" = false ->
  exists r s',
    iteration E (Json (JDict items)) s = (Ok Next, s') /\
    stdout s' = stdout s ++ [r] /\
    resp_id r = default JNull (Json.lookup items "id").
Proof.
  intros Hop. unfold iteration. rewrite !get_dict, !bind_lift_ok. cbv beta.
  set (operation := default JNull (Json.lookup items "operation")) in *.
  set (data := default (JDict []) (Json.lookup items "data")).
  pose proof (quiet_dispatch E operation data s) as Hquiet.
  pose proof (dispatch_breaks E operation data s) as Hbreaks.
  unfold mbind, M_bind, try_exceptM, write_stdout, print_stderr, mret, M_ret. cbv beta.
  destruct (dispatch E operation data s) as [[[result error|result]|e] s1];
    simpl in Hquiet; simpl.
  - eexists _, _. split; [reflexivity|]. split; [simpl; now rewrite Hquiet | reflexivity].
  - destruct (Hbreaks _ _ eq_refl) as [Hshut _]. congruence.
  - eexists _, _. split; [reflexivity|]. split; [simpl; now rewrite Hquiet | reflexivity].
Qed.

Lemma read_loop_answers_all (lines : list line) (s : state) :
  forallb serviceable lines = true ->
  exists s',
    read_loop E lines s = (Ok tt, s') /\
    map resp_id (stdout s') = map resp_id (stdout s) ++ request_ids lines.
Proof.
  revert s. induction lines as [|l lines IH]; intros s Hall.
  - exists s. split; [reflexivity|]. simpl. now rewrite app_nil_r.
  - cbn [forallb] in Hall. apply andb_prop in Hall. destruct Hall as [Hl Hall].
    cbn [read_loop]. destruct l as [raw|raw e|request].
    + destruct (bad_json_continues E raw s) as (s1 & Hit & Hout & _).
      rewrite (bind_ok _ _ _ _ _ Hit).
      destruct (IH s1 Hall) as (s' & Hrun & Hids). exists s'. split; [exact Hrun|].
      rewrite Hids, Hout. reflexivity.
    + discriminate.
    + destruct request; try discriminate.
      cbn [serviceable] in Hl. apply negb_true_iff in Hl.
      destruct (iteration_answers_object items s Hl) as (r & s1 & Hit & Hout & Hid).
      rewrite (bind_ok _ _ _ _ _ Hit).
      destruct (IH s1 Hall) as (s' & Hrun & Hids). exists s'. split; [exact Hrun|].
      rewrite Hids, Hout, map_app. simpl. rewrite Hid, <- app_assoc. reflexivity.
Qed.

(** X1.  One response per request, in order.  When on every line of the
    input [json.loads] either raises [JSONDecodeError] or returns an
    object whose operation is not "shutdown", the run ends normally and
    the ids on stdout are the ids of the object lines, one each, in the
    order they came; a line rejected with [JSONDecodeError] gets no
    response.  A line on which [json.loads] raises anything else is not
    among these: it ends the worker ([undecodable_line_ends_worker]). *)
Theorem one_response_per_request (stdin : list line) :
  forallb serviceable stdin = true ->
  (main E stdin).1 = Ok tt /\
  map resp_id (stdout (main E stdin).2) = request_ids stdin.
Proof.
  intros Hall. unfold main.
  destruct (read_loop_answers_all stdin (started E) Hall) as (s' & Hrun & Hids).
  rewrite (bind_ok _ _ _ _ _ Hrun). simpl. split; [reflexivity | exact Hids].
Qed.

(** *** A failed load_model leaves the processor alone *)

Lemma load_model_branch (data : json) :
  dispatch E (JStr "load_model") data =
    (path ← lift (Json.get data "model_path" (JStr (env_model_path E)));
     options ← lift (Json.get data "options" (JDict []));
     dev ← lift (Json.get options "device" (JStr (env_device E)));
     options ← lift (Json.get data "options" (JDict []));
     quant ← lift (Json.get options "quantization" (JStr (env_quantization E)));
     new E path dev quant;;
     initialize;;
     mret (Falls_through (Some (Status_result "ok")) None)).
Proof. reflexivity. Qed.

(** X4.  A load_model request is all or nothing, and which of the two is
    decided by the shape of the request data alone.  When the data is
    an object whose "options" is missing or an object, the dispatch
    answers status "ok" and the processor is a fresh, initialized one
    built from the request, every missing key falling back on the
    environment, the device forced to "cpu" when CUDA is missing, with
    the two lines of the load on stderr.  When the data is no object,
    or its "options" is no object, the dispatch raises the
    [AttributeError] of the value that has no [get] and the state is
    untouched: the processor in use stays as it was. *)
Theorem load_model_all_or_nothing (data : json) (s : state) :
  dispatch E (JStr "load_model") data s =
    match data with
    | JDict items =>
        match default (JDict []) (Json.lookup items "options") with
        | JDict options =>
            let path := default (JStr (env_model_path E)) (Json.lookup items "model_path") in
            let dev := if cuda_is_available E
                       then default (JStr (env_device E)) (Json.lookup options "device")
                       else JStr "cpu" in
            let quant :=
              default (JStr (env_quantization E)) (Json.lookup options "quantization") in
            (Ok (Falls_through (Some (Status_result "ok")) None),
             {| processor := {| model_path := path; device := dev;
                                quantization := quant; initialized := true |};
                stderr := stderr s ++ [Initializing path dev; Loading_model path dev];
                stdout := stdout s;
                draws := draws s |})
        | options => (Raise (AttributeError (Json.type_name options) "get"), s)
        end
    | _ => (Raise (AttributeError (Json.type_name data) "get"), s)
    end.
Proof.
  rewrite load_model_branch.
  destruct data as [|b|n|x|st|l|items]; try reflexivity.
  rewrite !get_dict, ?bind_lift_ok. cbv beta. rewrite ?get_dict.
  destruct (default (JDict []) (Json.lookup items "options")) as [|b|n|x|st|l|options] eqn:Hopt;
    try reflexivity.
  cbv zeta.
  destruct (cuda_is_available E) eqn:Hcuda; unfold new; rewrite Hcuda;
    unfold initialize, get_self, set_self, print_stderr, lift, mbind, M_bind, mret, M_ret;
    simpl; now rewrite <- app_assoc.
Qed.

(** *** Without CUDA the device is "cpu" *)

Lemma cpu_still {A} (m : M A) : still m -> stays_on_cpu m.
Proof. intros H s Hs. unfold on_cpu in *. destruct (H s) as [H1 _]. now rewrite H1. Qed.

Lemma cpu_bind {A B} (m : M A) (f : A -> M B) :
  stays_on_cpu m -> (forall a, stays_on_cpu (f a)) -> stays_on_cpu (m ≫= f).
Proof.
  intros Hm Hf s Hs. unfold mbind, M_bind. specialize (Hm s Hs).
  destruct (m s) as [[a|e] s1]; simpl in *; [now apply Hf | exact Hm].
Qed.

Lemma cpu_print_stderr (l : log) : stays_on_cpu (print_stderr l).
Proof. intros s Hs. exact Hs. Qed.

Lemma cpu_ensure_initialized : stays_on_cpu ensure_initialized.
Proof.
  intros s Hs. rewrite ensure_initialized_state. simpl.
  now destruct (initialized (processor s)).
Qed.

Lemma cpu_process_audio (a o : json) : stays_on_cpu (process_audio E a o).
Proof.
  intros s Hs. unfold on_cpu. destruct (process_audio_after a o s) as [H1 _].
  rewrite H1. now apply cpu_ensure_initialized.
Qed.

Lemma cpu_extract_features (a o : json) : stays_on_cpu (extract_features E a o).
Proof.
  intros s Hs. unfold on_cpu. destruct (extract_features_after a o s) as [H1 _].
  rewrite H1. now apply cpu_ensure_initialized.
Qed.

Lemma cpu_new_initialize {A} (path dev quant : json) (a : A) :
  cuda_is_available E = false ->
  stays_on_cpu (new E path dev quant;; initialize;; mret a).
Proof. intros Hcuda s _. unfold new. rewrite Hcuda. reflexivity. Qed.

Lemma cpu_dispatch (operation data : json) :
  cuda_is_available E = false -> stays_on_cpu (dispatch E operation data).
Proof.
  intros Hcuda. unfold dispatch.
  destruct (Json.eq_str operation "ping").
  { apply cpu_still. unfold ping. auto with still. }
  destruct (Json.eq_str operation "process_audio").
  { repeat (apply cpu_bind; [apply cpu_still; solve [auto with still]|]; intros ?).
    apply cpu_bind; [apply cpu_process_audio|]. intros ?. apply cpu_still. auto with still. }
  destruct (Json.eq_str operation "extract_features").
  { repeat (apply cpu_bind; [apply cpu_still; solve [auto with still]|]; intros ?).
    apply cpu_bind; [apply cpu_extract_features|]. intros ?. apply cpu_still. auto with still. }
  destruct (Json.eq_str operation "load_model").
  { repeat (apply cpu_bind; [apply cpu_still; solve [auto with still]|]; intros ?).
    now apply cpu_new_initialize. }
  destruct (Json.eq_str operation "shutdown").
  { apply cpu_bind; [apply cpu_print_stderr|]. intros ?. apply cpu_still. auto with still. }
  apply cpu_still. auto with still.
Qed.

Ltac split_bind H :=
  let a := fresh "a" in let s1 := fresh "s" in let H1 := fresh "H" in
  apply bind_inv in H; destruct H as (a & s1 & H1 & H).

Lemma extract_features_no_ping (a o : json) (s s' : state) status dev available :
  extract_features E a o s <> (Ok (Ping_result status dev available), s').
Proof.
  unfold extract_features. intros H.
  repeat split_bind H.
  destruct (Json.truthy _); repeat split_bind H; discriminate.
Qed.

Lemma dispatch_ping_reply operation data s status dev available error s' :
  dispatch E operation data s
    = (Ok (Falls_through (Some (Ping_result status dev available)) error), s') ->
  dev = device (processor s) /\
  available = (if Json.eq_str dev "cuda" then 1024 * 1024 * 1024 * 6 else 0)%Z.
Proof.
  unfold dispatch.
  destruct (Json.eq_str operation "ping").
  { intros H. unfold ping, get_self, mbind, M_bind, mret, M_ret in H.
    inversion H; subst. split; reflexivity. }
  destruct (Json.eq_str operation "process_audio").
  { intros H. repeat split_bind H. discriminate. }
  destruct (Json.eq_str operation "extract_features").
  { intros H. repeat split_bind H. inversion H; subst.
    match goal with Hx : extract_features _ _ _ _ = _ |- _ =>
      now apply extract_features_no_ping in Hx end. }
  destruct (Json.eq_str operation "load_model").
  { intros H. repeat split_bind H. discriminate. }
  destruct (Json.eq_str operation "shutdown").
  { intros H. repeat split_bind H. discriminate. }
  intros H. discriminate.
Qed.

Lemma cpu_iteration (l : line) (s : state) :
  cuda_is_available E = false ->
  on_cpu s /\ Forall reports_cpu (stdout s) ->
  on_cpu (iteration E l s).2 /\ Forall reports_cpu (stdout (iteration E l s).2).
Proof.
  intros Hcuda [Hcpu Hout].
  destruct l as [raw|raw e|request]; [now split..|].
  destruct request as [|b|n|x|st|l|items]; try (now split).
  unfold iteration. rewrite !get_dict, !bind_lift_ok. cbv beta.
  set (operation := default JNull (Json.lookup items "operation")).
  set (data := default (JDict []) (Json.lookup items "data")).
  pose proof (quiet_dispatch E operation data s) as Hquiet.
  pose proof (cpu_dispatch operation data Hcuda s Hcpu) as Hkept.
  pose proof (dispatch_ping_reply operation data s) as Hping.
  unfold mbind, M_bind, try_exceptM, write_stdout, print_stderr, mret, M_ret. cbv beta.
  destruct (dispatch E operation data s) as [[[result error|result]|e] s1];
    simpl in Hquiet, Hkept; simpl.
  - split; [exact Hkept|]. rewrite Hquiet. apply Forall_app. split; [exact Hout|].
    constructor; [|constructor]. intros status dev available Hr. simpl in Hr. subst result.
    destruct (Hping _ _ _ _ _ eq_refl) as [Hdev Hav].
    unfold on_cpu in Hcpu. rewrite Hcpu in Hdev. subst dev. split; [reflexivity|exact Hav].
  - split; [exact Hkept | now rewrite Hquiet].
  - split; [exact Hkept|]. rewrite Hquiet. apply Forall_app. split; [exact Hout|].
    constructor; [|constructor]. intros status dev available Hr. discriminate.
Qed.

Lemma cpu_read_loop (lines : list line) (s : state) :
  cuda_is_available E = false ->
  on_cpu s /\ Forall reports_cpu (stdout s) ->
  on_cpu (read_loop E lines s).2 /\ Forall reports_cpu (stdout (read_loop E lines s).2).
Proof.
  intros Hcuda. revert s. induction lines as [|l lines IH]; intros s Hs; [exact Hs|].
  cbn [read_loop]. unfold mbind, M_bind.
  pose proof (cpu_iteration l s Hcuda Hs) as Hl.
  destruct (iteration E l s) as [[[|]|e] s1]; simpl in Hl; [now apply IH | exact Hl..].
Qed.

(** X3.  Without CUDA every ping says "cpu".  On a host where CUDA is not
    available, whatever devices the load_model requests of the input
    ask for, every ping reply of the run reports device "cpu" and no
    memory available, and the processor ends on "cpu". *)
Theorem without_cuda_every_ping_reports_cpu (stdin : list line) :
  cuda_is_available E = false ->
  on_cpu (main E stdin).2 /\ Forall reports_cpu (stdout (main E stdin).2).
Proof.
  intros Hcuda. unfold main.
  assert (Hstart : on_cpu (started E) /\ Forall reports_cpu (stdout (started E))).
  { split; [|constructor]. unfold on_cpu, started. simpl. now rewrite Hcuda. }
  pose proof (cpu_read_loop stdin (started E) Hcuda Hstart) as H.
  unfold mbind, M_bind.
  destruct (read_loop E stdin (started E)) as [[[]|e] s1]; exact H.
Qed.

(** *** process_audio on anything that has a length *)

Lemma segment_body_full (piece i : Z) s :
  exists seg s',
    (start ← lift (Py.truediv_int (i * piece) 16000);
     end_ ← lift (Py.truediv_int ((i + 1) * piece) 16000);
     r ← draw (random_random E);
     mret {| seg_text := "Word " +:+ pretty (i + 1)%Z;
             seg_start := start;
             seg_end := end_;
             seg_confidence := 0.8 + 0.2 * r |}) s = (Ok seg, s')
    /\ segment_of E piece i seg
    /\ stdout s' = stdout s /\ processor s' = processor s /\ stderr s' = stderr s.
Proof.
  eexists _, _. split; [reflexivity|]. split; [|repeat split].
  repeat split. now exists (draws s).
Qed.

Lemma process_audio_sized (v options : json) (n : Z) (s : state) :
  Json.len v = Ok n ->
  exists segs s',
    process_audio E v options s =
      (Ok {| transcription := String.concat " " (map seg_text segs);
             confidence := 0.9;
             segments := segs;
             duration := inject_Z n / inject_Z 16000;
             word_count := Z.max 1 (n / 8000);
             processing_time := 500;
             memory_usage := {| peak := 1024 * 1024 * 100; current := 1024 * 1024 * 50 |} |},
       s') /\
    Forall2 (segment_of E (n / Z.max 1 (n / 8000))) (range (Z.max 1 (n / 8000))) segs /\
    stdout s' = stdout s.
Proof.
  intros Hlen.
  destruct (ensure_initialized_ok s) as (s1 & Hinit & Hout1 & _).
  set (wc := Z.max 1 (n / 8000)).
  assert (Hwc : wc <> 0%Z) by lia.
  destruct (for_each_total (segment_of E (n / wc)) _ (range wc)
              (segment_body_full (n / wc)) s1) as (segs & s2 & Hsegs & Hall & Hout2 & _).
  exists segs, s2. split; [|split; [exact Hall | congruence]].
  unfold process_audio.
  rewrite (bind_ok _ _ _ _ _ Hinit).
  rewrite Hlen, bind_lift_ok. cbv beta.
  rewrite (floordiv_ok n 8000), bind_lift_ok by lia. cbv beta.
  rewrite max_spec. fold wc.
  rewrite (floordiv_ok n wc), bind_lift_ok by lia. cbv beta.
  rewrite (bind_ok _ _ _ _ _ Hsegs).
  reflexivity.
Qed.

Lemma process_audio_unsized (v options : json) (e : exn) (s : state) :
  Json.len v = Raise e ->
  exists s',
    process_audio E v options s = (Raise e, s') /\
    stdout s' = stdout s /\ draws s' = draws s.
Proof.
  intros Hlen.
  destruct (ensure_initialized_ok s) as (s1 & Hinit & Hout1 & Hdraws).
  exists s1. split; [|now split].
  unfold process_audio. rewrite (bind_ok _ _ _ _ _ Hinit), Hlen. reflexivity.
Qed.

(** X5.  [process_audio] measures its input with [len].  A string or an
    object given as audio data is accepted like a list and counted by
    its length; anything else (null, a number, a boolean) makes the call
    raise the [TypeError] of [len], before any number is drawn. *)
Theorem process_audio_measures_by_len (v options : json) (s : state) :
  match Json.len v with
  | Ok n =>
      exists r s',
        process_audio E v options s = (Ok r, s') /\
        word_count r = Z.max 1 (n / 8000) /\
        Z.of_nat (length (segments r)) = word_count r /\
        duration r = (inject_Z n / inject_Z 16000)%Q
  | Raise e =>
      exists s',
        process_audio E v options s = (Raise e, s') /\
        stdout s' = stdout s /\ draws s' = draws s
  end.
Proof.
  destruct (Json.len v) as [n|e] eqn:Hlen.
  - destruct (process_audio_sized v options n s Hlen) as (segs & s' & Hrun & Hall & _).
    eexists _, s'. split; [exact Hrun|]. simpl. repeat split.
    apply Forall2_length in Hall. rewrite <- Hall. unfold range.
    rewrite length_map, length_seq. lia.
  - exact (process_audio_unsized v options e s Hlen).
Qed.

(** X6.  The segments tile the audio.  For a list of [n] samples cut in
    [w = max(1, n // 8000)] words of [n // w] samples each, segment [i]
    runs from [i * (n // w) / 16000] to [(i + 1) * (n // w) / 16000]
    seconds: the first starts at 0, each starts where the one before
    ends, and the last ends no later than the duration. *)
Theorem segments_tile_the_audio (items : list json) (options : json) (s : state) :
  exists r s',
    process_audio E (JList items) options s = (Ok r, s') /\
    let n := Z.of_nat (length items) in
    let w := Z.max 1 (n / 8000) in
    Forall2 (fun i seg =>
               seg_start seg = (inject_Z (i * (n / w)) / inject_Z 16000)%Q /\
               seg_end seg = (inject_Z ((i + 1) * (n / w)) / inject_Z 16000)%Q)
            (range w) (segments r) /\
    (inject_Z (w * (n / w)) / inject_Z 16000 <= duration r)%Q.
Proof.
  destruct (process_audio_sized (JList items) options _ s eq_refl)
    as (segs & s' & Hrun & Hall & _).
  eexists _, s'. split; [exact Hrun|]. cbv zeta. simpl. split.
  - eapply Forall2_impl; [exact Hall|]. intros i seg (_ & Hs & He & _). now split.
  - set (n := Z.of_nat (length items)). set (w := Z.max 1 (n / 8000)).
    unfold Qdiv. apply Qmult_le_compat_r; [|discriminate].
    rewrite <- Zle_Qle. apply Z.mul_div_le. lia.
Qed.

(** X7.  Confidences stay in range.  When the generator hands out numbers
    between 0 and 1, as [np.random.random] does, every segment of a
    result has a confidence between 0.8 and 1. *)
Theorem segment_confidences_in_range (v options : json) (n : Z) (s : state) :
  (forall k, 0 <= random_random E k <= 1)%Q ->
  Json.len v = Ok n ->
  exists r s',
    process_audio E v options s = (Ok r, s') /\
    Forall (fun seg => 0.8 <= seg_confidence seg <= 1)%Q (segments r).
Proof.
  intros Hrand Hlen.
  destruct (process_audio_sized v options n s Hlen) as (segs & s' & Hrun & Hall & _).
  eexists _, s'. split; [exact Hrun|]. simpl.
  clear Hrun. induction Hall as [|i seg is' segs' Hseg _ IH]; constructor; [|exact IH].
  destruct Hseg as (_ & _ & _ & k & ->). specialize (Hrand k). split; lra.
Qed.

(** *** extract_features *)

Lemma length_range (n : Z) : length (range n) = Z.to_nat n.
Proof. unfold range. now rewrite length_map, length_seq. Qed.

Lemma draw_body (f : nat -> Q) (x : Z) (s : state) :
  exists y s',
    draw f s = (Ok y, s') /\ True /\
    stdout s' = stdout s /\ processor s' = processor s /\ stderr s' = stderr s.
Proof. eexists _, _. repeat split. Qed.

Lemma frame_body (x : Z) (s : state) :
  exists row s',
    for_each (range feature_dim) (fun _ => draw (random_normal E)) s = (Ok row, s') /\
    length row = 768%nat /\
    stdout s' = stdout s /\ processor s' = processor s /\ stderr s' = stderr s.
Proof.
  destruct (for_each_total (fun _ _ => True) (fun _ => draw (random_normal E))
              (range feature_dim) (draw_body (random_normal E)) s)
    as (row & s' & Hrow & Hall & H1 & H2 & H3).
  exists row, s'. split; [exact Hrow|]. split; [|now repeat split].
  apply Forall2_length in Hall. rewrite <- Hall, length_range. reflexivity.
Qed.

(** X8.  Feature frames.  When the options ask for no vector
    ([return_vector] missing or falsy) and the audio data has a length
    [n], [extract_features] returns [max(1, n // 320)] frames of 768
    numbers each, and the metadata says so: [dimensions] is the number
    of frames and 768, [time_steps] the number of frames. *)
Theorem extract_features_frames (v options rv : json) (n : Z) (s : state) :
  Json.get (Json.or options (JDict [])) "return_vector" (JBool false) = Ok rv ->
  Json.truthy rv = false ->
  Json.len v = Ok n ->
  exists features metadata s',
    extract_features E v options s
      = (Ok (Features_result features metadata 300
               {| peak := 1024 * 1024 * 80; current := 1024 * 1024 * 40 |}), s') /\
    Z.of_nat (length features) = Z.max 1 (n / 320) /\
    Forall (fun row => length row = 768%nat) features /\
    dimensions metadata = [Z.of_nat (length features); 768%Z] /\
    time_steps metadata = Z.of_nat (length features) /\
    sample_rate metadata = 16000%Z.
Proof.
  intros Hget Hfalsy Hlen.
  destruct (ensure_initialized_ok s) as (s1 & Hinit & _ & _).
  set (frames := Z.max 1 (n / 320)).
  destruct (for_each_total (fun _ row => length row = 768%nat) _ (range frames)
              frame_body s1) as (features & s2 & Hrun & Hall & _).
  assert (Hcount : Z.of_nat (length features) = frames).
  { rewrite <- (Forall2_length _ _ _ Hall), length_range. lia. }
  eexists features, _, s2. split.
  - unfold extract_features.
    rewrite (bind_ok _ _ _ _ _ Hinit).
    rewrite Hget, bind_lift_ok. cbv beta. rewrite Hfalsy.
    rewrite Hlen, bind_lift_ok. cbv beta.
    rewrite (floordiv_ok n 320), bind_lift_ok by lia. cbv beta.
    rewrite max_spec. fold frames.
    rewrite (bind_ok _ _ _ _ _ Hrun).
    reflexivity.
  - simpl. rewrite Hcount. repeat split.
    clear Hrun Hcount. induction Hall; constructor; assumption.
Qed.

(** X9.  A feature vector needs no audio.  When the options carry a
    truthy [return_vector], [extract_features] returns a vector of 768
    numbers whatever the audio data is, null or a number included: the
    audio is never measured. *)
Theorem extract_features_vector (v options rv : json) (s : state) :
  Json.get (Json.or options (JDict [])) "return_vector" (JBool false) = Ok rv ->
  Json.truthy rv = true ->
  exists feature_vector s',
    extract_features E v options s
      = (Ok (Feature_vector_result feature_vector 300
               {| peak := 1024 * 1024 * 80; current := 1024 * 1024 * 40 |}), s') /\
    length feature_vector = 768%nat.
Proof.
  intros Hget Htruthy.
  destruct (ensure_initialized_ok s) as (s1 & Hinit & _ & _).
  destruct (frame_body 0 s1) as (row & s2 & Hrow & Hlen & _).
  exists row, s2. split; [|exact Hlen].
  unfold extract_features.
  rewrite (bind_ok _ _ _ _ _ Hinit).
  rewrite Hget, bind_lift_ok. cbv beta. rewrite Htruthy.
  rewrite (bind_ok _ _ _ _ _ Hrow).
  reflexivity.
Qed.

(** X10.  Options that are no dict.  Options that are truthy and not an
    object (a number, a string, a list) make [extract_features] raise
    [AttributeError], although the processor has been initialized by
    then; [process_audio] accepts the same options, which it never
    reads. *)
Theorem extract_features_rejects_odd_options (v options : json) (e : exn) (s : state) :
  Json.get (Json.or options (JDict [])) "return_vector" (JBool false) = Raise e ->
  exists s',
    extract_features E v options s = (Raise e, s') /\
    initialized (processor s') = true /\
    e = AttributeError (Json.type_name options) "get".
Proof.
  intros Hget.
  pose proof (ensure_initialized_state s) as Hinit.
  eexists. split; [|split].
  - unfold extract_features. rewrite (bind_ok _ _ _ _ _ Hinit), Hget. reflexivity.
  - destruct (initialized (processor s)) eqn:H; [exact H | reflexivity].
  - unfold Json.or in Hget. destruct options; simpl in Hget;
      try discriminate; try (now inversion Hget);
      match type of Hget with context [if ?c then _ else _] =>
        destruct c; simpl in Hget; try discriminate; now inversion Hget end.
Qed.

End WithEnv.

(** *** On a host without CUDA *)

Lemma one_response_per_request_witness :
  forallb serviceable mixed_input = true /\
  (main cpu_host mixed_input).1 = Ok tt /\
  map resp_id (stdout (main cpu_host mixed_input).2) = [JInt 1; JInt 2; JInt 3].
Proof.
  split; [reflexivity|].
  exact (one_response_per_request cpu_host mixed_input eq_refl).
Defined.

Lemma without_cuda_every_ping_reports_cpu_witness :
  cuda_is_available cpu_host = false /\
  on_cpu (main cpu_host cuda_wanted).2 /\
  Forall reports_cpu (stdout (main cpu_host cuda_wanted).2).
Proof.
  split; [reflexivity|].
  exact (without_cuda_every_ping_reports_cpu cpu_host cuda_wanted eq_refl).
Defined.

Lemma cpu_host_random_in_range : (forall k, 0 <= random_random cpu_host k <= 1)%Q.
Proof. intros k. simpl. split; discriminate. Qed.

Lemma segment_confidences_in_range_witness :
  (forall k, 0 <= random_random cpu_host k <= 1)%Q /\
  Json.len (JStr "abc") = Ok 3%Z /\
  exists r s',
    process_audio cpu_host (JStr "abc") JNull (started cpu_host) = (Ok r, s') /\
    Forall (fun seg => 0.8 <= seg_confidence seg <= 1)%Q (segments r).
Proof.
  split; [exact cpu_host_random_in_range|]. split; [reflexivity|].
  exact (segment_confidences_in_range cpu_host (JStr "abc") JNull 3 (started cpu_host)
           cpu_host_random_in_range eq_refl).
Defined.

Lemma extract_features_frames_witness :
  Json.get (Json.or JNull (JDict [])) "return_vector" (JBool false) = Ok (JBool false) /\
  Json.truthy (JBool false) = false /\
  Json.len (JList (repeat (JFloat 0) 700)) = Ok 700%Z /\
  exists features metadata s',
    extract_features cpu_host (JList (repeat (JFloat 0) 700)) JNull (started cpu_host)
      = (Ok (Features_result features metadata 300
               {| peak := 1024 * 1024 * 80; current := 1024 * 1024 * 40 |}), s') /\
    Z.of_nat (length features) = Z.max 1 (700 / 320) /\
    Forall (fun row => length row = 768%nat) features /\
    dimensions metadata = [Z.of_nat (length features); 768%Z] /\
    time_steps metadata = Z.of_nat (length features) /\
    sample_rate metadata = 16000%Z.
Proof.
  split; [reflexivity|]. split; [reflexivity|]. split; [reflexivity|].
  exact (extract_features_frames cpu_host (JList (repeat (JFloat 0) 700)) JNull (JBool false)
           700 (started cpu_host) eq_refl eq_refl eq_refl).
Defined.

Lemma extract_features_vector_witness :
  Json.get (Json.or (JDict [("return_vector", JBool true)]) (JDict []))
    "return_vector" (JBool false) = Ok (JBool true) /\
  Json.truthy (JBool true) = true /\
  exists feature_vector s',
    extract_features cpu_host JNull (JDict [("return_vector", JBool true)]) (started cpu_host)
      = (Ok (Feature_vector_result feature_vector 300
               {| peak := 1024 * 1024 * 80; current := 1024 * 1024 * 40 |}), s') /\
    length feature_vector = 768%nat.
Proof.
  split; [reflexivity|]. split; [reflexivity|].
  exact (extract_features_vector cpu_host JNull (JDict [("return_vector", JBool true)])
           (JBool true) (started cpu_host) eq_refl eq_refl).
Defined.

Lemma extract_features_rejects_odd_options_witness :
  Json.get (Json.or (JInt 5) (JDict [])) "return_vector" (JBool false)
    = Raise (AttributeError "int" "get") /\
  exists s',
    extract_features cpu_host (JList []) (JInt 5) (started cpu_host)
      = (Raise (AttributeError "int" "get"), s') /\
    initialized (processor s') = true /\
    AttributeError "int" "get" = AttributeError (Json.type_name (JInt 5)) "get".
Proof.
  split; [reflexivity|].
  exact (extract_features_rejects_odd_options cpu_host (JList []) (JInt 5) _
           (started cpu_host) eq_refl).
Defined.

End WorkerCoverage.

(** * More of the memory manager *)

Module MemoryCoverage.

Import Memory MemoryTerms MemoryProperties.

(** The snapshot of a probe, field by field. *)
Lemma get_memory_stats_value (P : Probe) :
  exists stats,
    get_memory_stats P = Ok stats /\
    gpu_total stats
      = (if cuda_is_available P then inject_Z (cuda_total_memory P) / inject_Z GiB else 0)%Q /\
    gpu_allocated stats
      = (if cuda_is_available P then inject_Z (cuda_memory_allocated P) / inject_Z GiB
         else 0)%Q.
Proof.
  unfold get_memory_stats, Py.truediv_int. change (GiB =? 0)%Z with false. cbv iota.
  destruct (cuda_is_available P); eexists; repeat split.
Qed.



(** X13.  Is the memory there.  Without a device [check_memory_available]
    answers (False, 0.0) for every requirement, zero and negative ones
    included; with a device it answers with the free memory, total less
    allocated, and True exactly when that covers the requirement.  It
    never raises. *)
Theorem check_memory_available_answer (self : MemoryManager) (P : Probe) (required : Q) :
  exists ok free,
    check_memory_available self P required = Ok (ok, free) /\
    (cuda_is_available P = false -> ok = false /\ free = 0%Q) /\
    (cuda_is_available P = true ->
       free = (inject_Z (cuda_total_memory P) / inject_Z GiB
               - inject_Z (cuda_memory_allocated P) / inject_Z GiB)%Q /\
       (ok = true <-> (required <= free)%Q)).
Proof.
  unfold check_memory_available.
  destruct (get_memory_stats_value P) as (stats & Hstats & Htotal & Halloc).
  destruct (cuda_is_available P) eqn:Hcuda; simpl.
  - rewrite Hstats. cbn [mbind res_bind mret res_ret]. eexists _, _.
    split; [reflexivity|]. split; [discriminate|]. intros _.
    rewrite Htotal, Halloc. split; [reflexivity|]. apply Qle_bool_iff.
  - eexists _, _. split; [reflexivity|]. split; [now split | discriminate].
Qed.


(** X15.  The configuration of a host with no device.  Without CUDA the
    snapshot has a device total of 0, so for every target of -0.5 GB or
    more the memory ceiling comes out negative, "-0.5GB", with 8-bit
    loading on and the cache off. *)
Theorem config_without_device (self : MemoryManager) (P : Probe) :
  cuda_is_available P = false ->
  (-0.5 <= target_gpu_memory self)%Q ->
  optimize_model_config self P =
    Ok {| torch_dtype := "torch.float16";
          device_map := "auto";
          load_in_8bit := Some true;
          use_cache := Some false;
          gradient_checkpointing := Some true;
          max_memory := [(0%Z, "-0.5GB")] |}.
Proof.
  intros Hcuda Htarget.
  unfold optimize_model_config, get_memory_stats, Py.truediv_int.
  change (GiB =? 0)%Z with false. cbv iota. rewrite Hcuda.
  cbn [mbind res_bind mret res_ret gpu_total].
  assert (Hmin : Py.min (0 - 0.5) (target_gpu_memory self) = (0 - 0.5)%Q).
  { unfold Py.min. destruct (Py.ltb (target_gpu_memory self) (0 - 0.5)) eqn:Hlt; [|reflexivity].
    apply ltb_lt in Hlt. exfalso. lra. }
  rewrite Hmin. reflexivity.
Qed.

(** *** On a 6 GB card and on a host with no card *)


Lemma config_without_device_witness :
  cuda_is_available no_card = false /\
  (-0.5 <= target_gpu_memory manager)%Q /\
  optimize_model_config manager no_card =
    Ok {| torch_dtype := "torch.float16";
          device_map := "auto";
          load_in_8bit := Some true;
          use_cache := Some false;
          gradient_checkpointing := Some true;
          max_memory := [(0%Z, "-0.5GB")] |}.
Proof.
  split; [reflexivity|]. split; [discriminate|].
  apply (config_without_device manager no_card); [reflexivity | discriminate].
Defined.

Example memory_checks :
  (exists free, check_memory_available manager card_6gb 5 = Ok (true, free)) /\
  (exists free, check_memory_available manager card_6gb 5.5 = Ok (false, free)) /\
  check_memory_available manager no_card 0 = Ok (false, 0%Q).
Proof.
  split; [eexists; vm_compute; reflexivity|].
  split; [eexists; vm_compute; reflexivity|]. reflexivity.
Qed.

End MemoryCoverage.

(** * More of the HTTP facade *)

Module ServerCoverage.

Import Server ServerTerms ServerProperties.

Section WithEnv.

Variable E : Env.

(** *** A load, from the request to the cache *)

Lemma load_model_task_outcome (config : ModelConfig) (s : state) :
  load_model_task E config s =
    (Ok tt,
     match backend_load E config with
     | Ok d =>
         {| loaded_models := <[name config := d]> (loaded_models s);
            background_tasks := background_tasks s;
            logs := (logs s ++ [Loading_model (name config) (path config)])
                    ++ [Model_loaded (name config)] |}
     | Raise e =>
         {| loaded_models := loaded_models s;
            background_tasks := background_tasks s;
            logs := (logs s ++ [Loading_model (name config) (path config)])
                    ++ [Failed_to_load (name config) e] |}
     end).
Proof.
  unfold load_model_task, backend_load, try_exceptM, logger, store, lift, mbind, M_bind.
  cbn [res_bind].
  destruct (Wav2Vec2Processor_from_pretrained E (path config)) as [p|e]; [|reflexivity].
  destruct (Wav2Vec2Model_from_pretrained E (path config)) as [m|e]; [|reflexivity].
  simpl.
  destruct (model_to E m (if cuda_is_available E then "cuda" else "cpu")) as [m'|e];
    reflexivity.
Qed.

Lemma run_last_task (config : ModelConfig) (s : state) :
  handle_event E (Runs_background_task (length (background_tasks s)))
    {| loaded_models := loaded_models s;
       background_tasks := background_tasks s ++ [config];
       logs := logs s |}
  = (Task_done, (load_model_task E config s).2).
Proof.
  unfold handle_event, take_task. cbn [loaded_models background_tasks logs].
  rewrite list_lookup_middle by reflexivity.
  rewrite take_app_length.
  replace (S (length (background_tasks s))) with (length (background_tasks s ++ [config]))
    by (rewrite length_app; simpl; lia).
  rewrite drop_all, app_nil_r. destruct s; reflexivity.
Qed.

(** X16.  A load that succeeds.  For a name that is not in the cache, the
    request is answered "loading started"; once its background task has
    run and the three backend calls have succeeded, the cache holds the
    entry under that name, every other name is as before, and the task
    is off the list. *)
Theorem load_then_task_stores_entry (config : ModelConfig) (d : ModelData) (s : state) :
  loaded_models s !! name config = None ->
  backend_load E config = Ok d ->
  exists s',
    serve E [POST_models_load config;
             Runs_background_task (length (background_tasks s))] s
      = ([Load (Ok (loading_started config)); Task_done], s') /\
    loaded_models s' !! name config = Some d /\
    (forall n, n <> name config -> loaded_models s' !! n = loaded_models s !! n) /\
    background_tasks s' = background_tasks s.
Proof.
  intros Hnone Hload. eexists. split.
  - cbn [serve handle_event]. rewrite (load_model_not_cached config s Hnone).
    pose proof (run_last_task config s) as Hrun. cbn [handle_event] in Hrun.
    rewrite Hrun. rewrite load_model_task_outcome, Hload. reflexivity.
  - cbn [loaded_models background_tasks]. split; [apply lookup_insert_eq|].
    split; [|reflexivity]. intros n Hn. now apply lookup_insert_ne.
Qed.

(** X17.  A load that fails is still reported as a success.  For a name
    that is not in the cache, the request is answered success,
    "loading started"; when the backend then raises, the task ends
    quietly: the cache is as before and the only trace is the error on
    the log. *)
Theorem failed_load_is_silent (config : ModelConfig) (e : exn) (s : state) :
  loaded_models s !! name config = None ->
  backend_load E config = Raise e ->
  serve E [POST_models_load config;
           Runs_background_task (length (background_tasks s))] s
    = ([Load (Ok (loading_started config)); Task_done],
       {| loaded_models := loaded_models s;
          background_tasks := background_tasks s;
          logs := (logs s ++ [Loading_model (name config) (path config)])
                  ++ [Failed_to_load (name config) e] |}).
Proof.
  intros Hnone Hload.
  cbn [serve handle_event]. rewrite (load_model_not_cached config s Hnone).
  pose proof (run_last_task config s) as Hrun. cbn [handle_event] in Hrun.
  rewrite Hrun. rewrite load_model_task_outcome, Hload. reflexivity.
Qed.

(** *** GET /health *)

Lemma health_check_value (s : state) :
  health_check E s =
    (Ok {| status := "ok";
           models := (map_to_list (loaded_models s)).*1;
           gpu_available := cuda_is_available E;
           memory_usage :=
             if cuda_is_available E && (max_memory_allocated E >? 0)%Z
             then inject_Z (memory_allocated E) / inject_Z (max_memory_allocated E)
             else 0 |}, s).
Proof.
  unfold health_check, try_exceptM, keys, Py.truediv_int, lift, mbind, M_bind, mret, M_ret.
  destruct (cuda_is_available E); [|reflexivity].
  destruct (Z.gtb_spec (max_memory_allocated E) 0) as [Hpos|Hle]; [|reflexivity].
  destruct (Z.eqb_spec (max_memory_allocated E) 0) as [Hz|_]; [lia | reflexivity].
Qed.

(** X18.  Health lists the cache.  The [models] of a health reply are the
    names in the cache, each once. *)
Theorem health_lists_cached_models (s : state) :
  exists r,
    health_check E s = (Ok r, s) /\
    NoDup (models r) /\
    forall n, n ∈ models r <-> cached n s.
Proof.
  eexists. split; [apply health_check_value|]. simpl. split; [apply NoDup_fst_map_to_list|].
  intros n. unfold cached. rewrite list_elem_of_fmap. split.
  - intros ([k d] & -> & Hin). apply elem_of_map_to_list in Hin. simpl. eauto.
  - intros [d Hd]. exists (n, d). split; [reflexivity|]. now apply elem_of_map_to_list.
Qed.

(** *** POST /process/wav2vec2 *)

Lemma process_audio_handler (data : AudioData) (s : state) :
  (exists r s', process_audio E data s = (Ok r, s')) \/
  (exists e s', process_audio E data s = (Raise (HTTPException 500 [Exn e]), s')).
Proof.
  unfold process_audio, try_exceptM.
  match goal with |- context [match ?m s with _ => _ end] =>
    destruct (m s) as [[r|e] s1] end.
  - left. eauto.
  - right. eexists _, _. reflexivity.
Qed.

Lemma process_audio_cached (data : AudioData) (s : state) (n : string) (d : ModelData) :
  default (JStr "wav2vec2-base") (options data !! "model") = JStr n ->
  loaded_models s !! n = Some d ->
  exists e,
    process_audio E data s
      = (Raise (HTTPException 500 [Exn e]), logged (Processing_failed e) s).
Proof.
  intros Hmodel Hsome.
  destruct (extract E (md_processor d) (md_model d) (audio data) (sampleRate data))
    as [[features_list shape]|e] eqn:Hextract.
  - exists (UnboundLocalError "time").
    unfold process_audio, try_exceptM, contains, getitem, lift, mbind, M_bind.
    rewrite Hmodel, Hsome. rewrite bool_decide_eq_true_2 by eauto.
    simpl. rewrite Hsome, Hextract. reflexivity.
  - exists e. exact (backend_failure_answered_500 E data s n d e Hmodel Hsome Hextract).
Qed.

Lemma process_audio_other_model (data : AudioData) (s : state) :
  Json.eq_str (default (JStr "wav2vec2-base") (options data !! "model")) "wav2vec2-base"
    = false ->
  exists e s', process_audio E data s = (Raise (HTTPException 500 [Exn e]), s') /\
               loaded_models s' = loaded_models s.
Proof.
  intros Hother.
  destruct (default (JStr "wav2vec2-base") (options data !! "model"))
    as [|b|z|x|n|l|items] eqn:Hmodel;
    try (eexists _, _; unfold process_audio, try_exceptM, contains, mbind, M_bind;
         rewrite Hmodel; split; reflexivity).
  destruct (loaded_models s !! n) as [d|] eqn:Hlookup.
  - destruct (process_audio_cached data s n d Hmodel Hlookup) as (e & Hrun).
    exists e. eexists. split; [exact Hrun | reflexivity].
  - eexists _, _. unfold process_audio, try_exceptM, contains, mbind, M_bind.
    rewrite Hmodel. rewrite bool_decide_eq_false_2 by (rewrite Hlookup; now intros [? ?]).
    rewrite Hother. split; reflexivity.
Qed.

Lemma process_audio_fresh_default (data : AudioData) (s : state) :
  default (JStr "wav2vec2-base") (options data !! "model") = JStr "wav2vec2-base" ->
  loaded_models s !! "wav2vec2-base" = None ->
  process_audio E data s =
    match backend_load E base with
    | Raise e =>
        (Raise (HTTPException 500 [Exn (KeyError (JStr "wav2vec2-base"))]),
         logged (Processing_failed (KeyError (JStr "wav2vec2-base")))
           (load_model_task E base s).2)
    | Ok d =>
        match extract E (md_processor d) (md_model d) (audio data) (sampleRate data) with
        | Ok (features_list, shape) =>
            (Ok {| features := features_list;
                   metadata := {| meta_model := JStr "wav2vec2-base";
                                  meta_shape := shape;
                                  meta_timestamp := time_time E |} |},
             (load_model_task E base s).2)
        | Raise e =>
            (Raise (HTTPException 500 [Exn e]),
             logged (Processing_failed e) (load_model_task E base s).2)
        end
    end.
Proof.
  intros Hmodel Hnone.
  unfold process_audio, try_exceptM, contains. unfold mbind at 1, M_bind at 1.
  rewrite Hmodel. rewrite bool_decide_eq_false_2 by (rewrite Hnone; now intros [? ?]).
  cbn [Json.eq_str]. change (String.eqb "wav2vec2-base" "wav2vec2-base") with true. cbv iota.
  fold base. unfold mbind, M_bind. rewrite load_model_task_outcome.
  destruct (backend_load E base) as [d|e]; unfold getitem, lift, mret, M_ret, raise, logger;
    cbn [loaded_models fst snd].
  - rewrite lookup_insert_eq.
    destruct (extract E (md_processor d) (md_model d) (audio data) (sampleRate data))
      as [[features_list shape]|e]; reflexivity.
  - rewrite Hnone. reflexivity.
Qed.

Lemma eq_str_true (v : json) (t : string) : Json.eq_str v t = true -> v = JStr t.
Proof.
  destruct v; simpl; try discriminate. intros H. apply String.eqb_eq in H. now subst.
Qed.

Lemma process_success_inv (data : AudioData) (s s' : state) (r : ProcessingResult) :
  process_audio E data s = (Ok r, s') ->
  default (JStr "wav2vec2-base") (options data !! "model") = JStr "wav2vec2-base" /\
  loaded_models s !! "wav2vec2-base" = None /\
  cached "wav2vec2-base" s' /\
  meta_model (metadata r) = JStr "wav2vec2-base" /\
  meta_timestamp (metadata r) = time_time E.
Proof.
  intros Hrun.
  destruct (Json.eq_str (default (JStr "wav2vec2-base") (options data !! "model"))
              "wav2vec2-base") eqn:Hdefault.
  - apply eq_str_true in Hdefault.
    destruct (loaded_models s !! "wav2vec2-base") as [d|] eqn:Hlookup.
    + destruct (process_audio_cached data s _ d Hdefault Hlookup) as (e & Hfail). congruence.
    + rewrite (process_audio_fresh_default data s Hdefault Hlookup) in Hrun.
      pose proof (load_model_task_outcome base s) as Htask.
      destruct (backend_load E base) as [d|e]; [|discriminate].
      destruct (extract E (md_processor d) (md_model d) (audio data) (sampleRate data))
        as [[features_list shape]|e]; [|discriminate].
      inversion Hrun; subst. split; [exact Hdefault|]. split; [reflexivity|].
      split; [|split; reflexivity].
      unfold cached. rewrite Htask. cbn [snd loaded_models].
      change (name base) with "wav2vec2-base". rewrite lookup_insert_eq. eauto.
  - destruct (process_audio_other_model data s Hdefault) as (e & s1 & Hfail & _). congruence.
Qed.

(** X19.  What a processing request can come to.  Either it is the request
    that loads the default model (the model named is the default, it was
    not in the cache and is in it afterwards) and the reply carries the
    features with the clock's time, or the request fails with status
    500: no request is answered with any other status. *)
Theorem process_audio_outcomes (data : AudioData) (s : state) :
  (exists r s',
      process_audio E data s = (Ok r, s') /\
      default (JStr "wav2vec2-base") (options data !! "model") = JStr "wav2vec2-base" /\
      loaded_models s !! "wav2vec2-base" = None /\
      cached "wav2vec2-base" s' /\
      meta_timestamp (metadata r) = time_time E) \/
  (exists e s', process_audio E data s = (Raise (HTTPException 500 [Exn e]), s')).
Proof.
  destruct (process_audio_handler data s) as [(r & s' & Hrun)|Hfail]; [left | now right].
  destruct (process_success_inv data s s' r Hrun) as (H1 & H2 & H3 & _ & H5).
  now exists r, s'.
Qed.

(** X20.  A failed load of the default model shows as a KeyError.  When
    the default model is asked for, is not in the cache, and the backend
    raises [e] while loading it, the load's exception goes to the log
    and the request fails on the cache lookup: status 500 with
    [KeyError('wav2vec2-base')] as its detail, the cache as before. *)
Theorem failed_default_load_is_a_key_error (data : AudioData) (s : state) (e : exn) :
  default (JStr "wav2vec2-base") (options data !! "model") = JStr "wav2vec2-base" ->
  loaded_models s !! "wav2vec2-base" = None ->
  backend_load E base = Raise e ->
  process_audio E data s =
    (Raise (HTTPException 500 [Exn (KeyError (JStr "wav2vec2-base"))]),
     {| loaded_models := loaded_models s;
        background_tasks := background_tasks s;
        logs := logs s ++ [Loading_model "wav2vec2-base" "facebook/wav2vec2-base-960h";
                           Failed_to_load "wav2vec2-base" e;
                           Processing_failed (KeyError (JStr "wav2vec2-base"))] |}).
Proof.
  intros Hmodel Hnone Hload.
  rewrite (process_audio_fresh_default data s Hmodel Hnone).
  rewrite load_model_task_outcome, Hload. unfold logged. cbn [snd loaded_models background_tasks logs].
  change (name base) with "wav2vec2-base". change (path base) with "facebook/wav2vec2-base-960h".
  now rewrite <- !app_assoc.
Qed.

(** *** A whole life of the server *)

Lemma no_success_once_cached (evs : list event) (s : state) :
  cached "wav2vec2-base" s -> processed (serve E evs s).1 = 0.
Proof.
  revert s. induction evs as [|ev evs IH]; intros s Hs; [reflexivity|].
  cbn [serve].
  pose proof (handle_event_cached E "wav2vec2-base" ev s Hs) as Hnext.
  destruct (handle_event E ev s) as [r s1] eqn:Hev. simpl in Hnext.
  specialize (IH s1 Hnext). destruct (serve E evs s1) as [rs s2]. simpl in *.
  unfold processed in *. cbn [List.filter].
  destruct r as [h|l|[p|e]| |]; try exact IH.
  exfalso. destruct ev as [|config|data|i]; simpl in Hev.
  - destruct (health_check E s); discriminate.
  - destruct (load_model config s); discriminate.
  - destruct (process_audio E data s) as [rp sp] eqn:Hrun. inversion Hev; subst.
    destruct (process_success_inv data s s1 p Hrun) as (_ & Hnone & _).
    destruct Hs as [d Hd]. congruence.
  - unfold take_task in Hev. destruct (background_tasks s !! i); discriminate.
Qed.

(** X21.  At most one request is ever processed.  Whatever requests and
    background tasks a server goes through, from whatever state, at most
    one processing request is answered with features; from a state
    whose cache holds the default model, none is. *)
Theorem at_most_one_request_is_processed (evs : list event) (s : state) :
  processed (serve E evs s).1 <= 1 /\
  (cached "wav2vec2-base" s -> processed (serve E evs s).1 = 0).
Proof.
  split; [|apply no_success_once_cached].
  revert s. induction evs as [|ev evs IH]; intros s; [unfold processed; simpl; lia|].
  cbn [serve].
  destruct (handle_event E ev s) as [r s1] eqn:Hev.
  pose proof (IH s1) as Hrest. pose proof (no_success_once_cached evs s1) as Hnone.
  destruct (serve E evs s1) as [rs s2]. simpl in *.
  unfold processed in *. cbn [List.filter].
  destruct r as [h|l|[p|e]| |]; try exact Hrest.
  cbn [is_processed length].
  enough (cached "wav2vec2-base" s1) as Hc by (rewrite (Hnone Hc); lia).
  destruct ev as [|config|data|i]; simpl in Hev.
  - destruct (health_check E s); discriminate.
  - destruct (load_model config s); discriminate.
  - destruct (process_audio E data s) as [rp sp] eqn:Hrun. inversion Hev; subst.
    now destruct (process_success_inv data s s1 p Hrun) as (_ & _ & Hc & _).
  - unfold take_task in Hev. destruct (background_tasks s !! i); discriminate.
Qed.

End WithEnv.

(** *** On a working and on a broken backend *)

Lemma load_then_task_stores_entry_witness :
  loaded_models start !! name large = None /\
  backend_load working_backend large
    = Ok {| md_processor := 1%N; md_model := 2%N; md_config := large |} /\
  exists s',
    serve working_backend
      [POST_models_load large; Runs_background_task (length (background_tasks start))] start
      = ([Load (Ok (loading_started large)); Task_done], s') /\
    loaded_models s' !! name large
      = Some {| md_processor := 1%N; md_model := 2%N; md_config := large |} /\
    (forall n, n <> name large -> loaded_models s' !! n = loaded_models start !! n) /\
    background_tasks s' = background_tasks start.
Proof.
  split; [reflexivity|]. split; [reflexivity|].
  exact (load_then_task_stores_entry working_backend large _ start eq_refl eq_refl).
Defined.

Lemma failed_load_is_silent_witness :
  loaded_models start !! name large = None /\
  backend_load broken_backend large = Raise (LibraryError "no such file") /\
  serve broken_backend
    [POST_models_load large; Runs_background_task (length (background_tasks start))] start
    = ([Load (Ok (loading_started large)); Task_done],
       {| loaded_models := loaded_models start;
          background_tasks := background_tasks start;
          logs := (logs start ++ [Loading_model (name large) (path large)])
                  ++ [Failed_to_load (name large) (LibraryError "no such file")] |}).
Proof.
  split; [reflexivity|]. split; [reflexivity|].
  exact (failed_load_is_silent broken_backend large _ start eq_refl eq_refl).
Defined.

Lemma failed_default_load_is_a_key_error_witness :
  default (JStr "wav2vec2-base") (options (clip None) !! "model") = JStr "wav2vec2-base" /\
  loaded_models start !! "wav2vec2-base" = None /\
  backend_load broken_backend base = Raise (LibraryError "no such file") /\
  process_audio broken_backend (clip None) start =
    (Raise (HTTPException 500 [Exn (KeyError (JStr "wav2vec2-base"))]),
     {| loaded_models := loaded_models start;
        background_tasks := background_tasks start;
        logs := logs start ++ [Loading_model "wav2vec2-base" "facebook/wav2vec2-base-960h";
                               Failed_to_load "wav2vec2-base" (LibraryError "no such file");
                               Processing_failed (KeyError (JStr "wav2vec2-base"))] |}).
Proof.
  split; [reflexivity|]. split; [reflexivity|]. split; [reflexivity|].
  exact (failed_default_load_is_a_key_error broken_backend (clip None) start _
           eq_refl eq_refl eq_refl).
Defined.

Example three_requests_one_processed :
  processed (serve working_backend
               [POST_process_wav2vec2 (clip None); POST_process_wav2vec2 (clip None);
                POST_models_load large; Runs_background_task 0;
                POST_process_wav2vec2 (clip (Some "wav2vec2-large"))] start).1 = 1%nat.
Proof. vm_compute. reflexivity. Qed.

End ServerCoverage.
